(** * GoldPrice_Prediction: the Streamlit application [app.py]

    A shallow embedding of the three classes of [app.py] ([DataHandler],
    [Predictor], [GoldPriceApp]) and the properties of its loaders, of its
    start-up and of the predict action.

    Python values are modelled as the program has them: prices are binary64
    floats, row counts are unbounded integers, the required columns are a
    finite set of strings, exceptions are values with a class and a message.
    The file system, pandas, pickle and the Streamlit widgets are outside the
    repository: what they return is read from an environment record, and
    every call to them is recorded in a trace. *)

From Stdlib Require Import ZArith Floats.
From stdpp Require Import base list strings gmap.

(** ** Exceptions *)

(** The exception classes that the standard library, pandas, pickle and
    Streamlit can raise on the paths of [app.py]. *)
Inductive exn_class : Type :=
  | BaseException
  | KeyboardInterrupt
  | SystemExit
  | StopException
  | Exception
  | OSError
  | FileNotFoundError
  | PermissionError
  | IsADirectoryError
  | ValueError
  | UnicodeDecodeError
  | ParserError
  | EmptyDataError
  | PickleError
  | UnpicklingError
  | EOFError
  | AttributeError
  | ImportError
  | ModuleNotFoundError
  | TypeError
  | LookupError
  | IndexError
  | KeyError
  | MemoryError.

#[global] Instance exn_class_eq_dec : EqDecision exn_class.
Proof. solve_decision. Defined.

(** The direct base class ([__base__]) of each class. *)
Definition base_class (c : exn_class) : option exn_class :=
  match c with
  | BaseException => None
  | KeyboardInterrupt | SystemExit | StopException | Exception => Some BaseException
  | OSError | ValueError | PickleError | EOFError | AttributeError
  | ImportError | TypeError | LookupError | MemoryError => Some Exception
  | FileNotFoundError | PermissionError | IsADirectoryError => Some OSError
  | UnicodeDecodeError | ParserError | EmptyDataError => Some ValueError
  | UnpicklingError => Some PickleError
  | ModuleNotFoundError => Some ImportError
  | IndexError | KeyError => Some LookupError
  end.

Fixpoint issubclass_upto (k : nat) (c d : exn_class) : bool :=
  if decide (c = d) then true
  else match k with
       | O => false
       | S k' => match base_class c with
                 | Some p => issubclass_upto k' p d
                 | None => false
                 end
       end.

(** No class is more than three steps below [BaseException]. *)
Definition issubclass (c d : exn_class) : bool := issubclass_upto 3 c d.

Record exn : Type := mk_exn { exn_cls : exn_class; exn_str : string }.

(** [isinstance(e, c)], the test an [except c] clause makes. *)
Definition isinstance (e : exn) (c : exn_class) : bool := issubclass (exn_cls e) c.
Global Arguments isinstance : simpl never.

(** ** Values and data frames *)

Inductive value : Type :=
  | VFloat (f : float)
  | VInt (z : Z)
  | VStr (s : string).

(** A pandas [DataFrame]: the column labels and the rows, each row holding
    one cell per column. *)
Record DataFrame : Type := mk_df { columns : list string; rows : list (list value) }.


Definition well_formed (d : DataFrame) : Prop :=
  Forall (λ r, length r = length (columns d)) (rows d).

(** A deserialized model: an opaque object whose [predict] maps a frame to
    an array of values, or raises. It holds no state of its own. *)
Record Model : Type := mk_model { model_predict : DataFrame → exn + list value }.

(** ** Traces and the effect monad *)

Inductive event : Type :=
  | FsExists (p : string)
  | PdReadCsv (p : string)
  | FsOpen (p : string)
  | FsClose (p : string)
  | PickleLoad (p : string)
  | ModelPredict (input : DataFrame)
  | StTitle (s : string)
  | StSubheader (s : string)
  | StTable (d : DataFrame)
  | StNumberInput (label : string) (min_value step : float)
  | StButton (label : string)
  | StWrite (s : string)
  | StError (s : string)
  | StStop.

Inductive outcome (A : Type) : Type :=
  | Ret (a : A)
  | Raise (e : exn).
Arguments Ret {A} a.
Arguments Raise {A} e.

(** A computation yields an outcome and the events it performed, oldest
    first. *)
Definition M (A : Type) : Type := outcome A * list event.

#[global] Instance M_ret : MRet M := λ A a, (Ret a, []).

#[global] Instance M_bind : MBind M := λ A B f m,
  match m with
  | (Ret a, t) => let r := f a in (r.1, t ++ r.2)
  | (Raise e, t) => (Raise e, t)
  end.

Definition emit (ev : event) : M unit := (Ret tt, [ev]).

Definition raise {A} (c : exn_class) (msg : string) : M A := (Raise (mk_exn c msg), []).

Definition lift {A} (r : exn + A) : M A :=
  match r with
  | inr a => (Ret a, [])
  | inl e => (Raise e, [])
  end.

(** [try: m  except <classes> as e: h e] *)
Definition try_except {A} (m : M A) (classes : list exn_class) (h : exn → M A) : M A :=
  match m with
  | (Ret a, t) => (Ret a, t)
  | (Raise e, t) =>
      if existsb (isinstance e) classes
      then let r := h e in (r.1, t ++ r.2)
      else (Raise e, t)
  end.

(** [try: m  finally: fin] *)
Definition try_finally {A} (m : M A) (fin : M unit) : M A :=
  match fin with
  | (Ret _, tf) => (m.1, m.2 ++ tf)
  | (Raise e, tf) => (Raise e, m.2 ++ tf)
  end.

Definition result {A} (m : M A) : outcome A := m.1.
Definition trace {A} (m : M A) : list event := m.2.

(** ** The environment

    What lies outside the repository: the files, [pd.read_csv],
    [pickle.load], and the conversions to text that Python performs in the
    messages. [list_set] is [list(s)] for a set [s]: Python fixes no
    iteration order, only that every element comes once. *)
Record World : Type := mk_world {
  fs_exists : string → bool;
  pd_read_csv : string → exn + DataFrame;
  fs_open_rb : string → exn + list Byte.byte;
  pickle_load : list Byte.byte → exn + Model;
  str_path : string → string;
  str_set : gset string → string;
  list_set : gset string → list string;
  list_set_perm : ∀ s, list_set s ≡ₚ elements s;
  str_labels : list string → string;
  format_2f : value → exn + string
}.

(** ** pandas operations used by [app.py] *)

(** [l[:n]] on a sequence: a negative bound counts from the end. *)
Definition slice_to {A} (n : Z) (l : list A) : list A :=
  if (0 <=? n)%Z then take (Z.to_nat n) l
  else take (length l - Z.to_nat (- n)) l.

(** [df.head(n)] is [df.iloc[:n]]. *)
Definition head (n : Z) (d : DataFrame) : DataFrame :=
  mk_df (columns d) (slice_to n (rows d)).

(** The cells of a row that stand under the label [c]. *)
Definition cells_at (c : string) (cols : list string) (r : list value) : list value :=
  (filter (λ p, p.1 = c) (zip cols r)).*2.

Definition select_row (labels cols : list string) (r : list value) : list value :=
  mbind (M := list) (λ c, cells_at c cols r) labels.

(** [df[labels]] for a list of labels: the columns carrying each label, in
    the order of [labels]; [KeyError] when a label names no column. *)
Definition getitem_columns (w : World) (d : DataFrame) (labels : list string) : M DataFrame :=
  let missing := filter (λ c, c ∉ columns d) labels in
  if decide (missing = []) then
    mret (mk_df (mbind (M := list) (λ c, filter (λ c', c' = c) (columns d)) labels)
                (select_row labels (columns d) <$> rows d))
  else raise KeyError (str_labels w missing).

(** [required.issubset(df.columns)] *)
Definition issubset (required : gset string) (cols : list string) : bool :=
  bool_decide (required ⊆ list_to_set cols).

(** ** DataHandler *)

Record DataHandler : Type := mk_DataHandler {
  file_path : string;
  required_columns : gset string;
  df : DataFrame
}.

Definition path_exists (w : World) (p : string) : M bool :=
  emit (FsExists p);; mret (fs_exists w p).

Definition read_csv (w : World) (p : string) : M DataFrame :=
  emit (PdReadCsv p);; lift (pd_read_csv w p).

Definition DataHandler_load_data (w : World) (path : string) (required : gset string)
  : M DataFrame :=
  found ← path_exists w path;
  if negb found then raise FileNotFoundError ("File not found: " +:+ str_path w path)
  else
    d ← read_csv w path;
    if negb (issubset required (columns d))
    then raise ValueError ("CSV file must contain these columns: " +:+ str_set w required)
    else mret d.

Definition DataHandler_init (w : World) (path : string) (required : gset string)
  : M DataHandler :=
  d ← DataHandler_load_data w path required;
  mret (mk_DataHandler path required d).

Definition get_head (w : World) (self : DataHandler) (n : Z) : M DataFrame :=
  sel ← getitem_columns w (df self) (list_set w (required_columns self));
  mret (head n sel).

(** ** Predictor *)

Record Predictor : Type := mk_Predictor {
  model_path : string;
  model : Model
}.

(** [with open(path, 'rb') as file: body file] *)
Definition with_open_rb {A} (w : World) (p : string) (body : list Byte.byte → M A) : M A :=
  file ← (emit (FsOpen p);; lift (fs_open_rb w p));
  try_finally (body file) (emit (FsClose p)).

Definition Predictor_load_model (w : World) (path : string) : M Model :=
  found ← path_exists w path;
  if negb found then raise FileNotFoundError ("Model file not found: " +:+ str_path w path)
  else
    try_except
      (with_open_rb w path (λ file, emit (PickleLoad path);; lift (pickle_load w file)))
      [PickleError]
      (λ e, raise PickleError ("Failed to load model: " +:+ exn_str e)).

Definition Predictor_init (w : World) (path : string) : M Predictor :=
  m ← Predictor_load_model w path;
  mret (mk_Predictor path m).

(** [a[0]] on the array a model returns. *)
Definition first_item (a : list value) : M value :=
  match a with
  | v :: _ => mret v
  | [] => raise IndexError "index 0 is out of bounds for axis 0 with size 0"
  end.

Definition Predictor_predict (self : Predictor) (input_data : DataFrame) : M value :=
  out ← (emit (ModelPredict input_data);; lift (model_predict (model self) input_data));
  first_item out.

(** ** GoldPriceApp *)

Record GoldPriceApp : Type := mk_GoldPriceApp {
  data_handler : DataHandler;
  predictor : Predictor;
  app_required_columns : gset string
}.

(** [st.stop()] ends the script run by raising Streamlit's [StopException]. *)
Definition st_stop {A} : M A := (Raise (mk_exn StopException EmptyString), [StStop]).

Definition default_data_path : string := "Gold_Price.csv".
Definition default_model_path : string := "svm_model.pkl".
Definition default_required_columns : gset string := {["Open"; "High"; "Low"]}.

(** The body of the [try] block of [__init__]. *)
Definition GoldPriceApp_construct (w : World) (data_path model_path : string)
    (required : gset string) : M GoldPriceApp :=
  dh ← DataHandler_init w data_path required;
  pr ← Predictor_init w model_path;
  mret (mk_GoldPriceApp dh pr required).

Definition GoldPriceApp_init (w : World) (data_path model_path : string)
    (required : gset string) : M GoldPriceApp :=
  try_except
    (GoldPriceApp_construct w data_path model_path required)
    [FileNotFoundError; ValueError; PickleError]
    (λ e, emit (StError (exn_str e));; st_stop).

#[local] Set Warnings "-inexact-float".

(** What the widgets return during one run of the script. *)
Record Inputs : Type := mk_Inputs {
  in_open : float;
  in_high : float;
  in_low : float;
  in_predict : bool
}.

Definition number_input (label : string) (min_value step : float) (entered : float)
  : M float :=
  emit (StNumberInput label min_value step);; mret entered.

Definition button (label : string) (clicked : bool) : M bool :=
  emit (StButton label);; mret clicked.

(** The frame built from the three entered prices. *)
Definition input_frame (open_price high_price low_price : float) : DataFrame :=
  mk_df ["Open"; "High"; "Low"]
        [[VFloat open_price; VFloat high_price; VFloat low_price]].

Definition any_not_positive (open_price high_price low_price : float) : bool :=
  (open_price <=? 0)%float || (high_price <=? 0)%float || (low_price <=? 0)%float.

(** The body of [if st.button('Predict'):] in [run]. *)
Definition predict_action (w : World) (self : GoldPriceApp)
    (open_price high_price low_price : float) : M unit :=
  if any_not_positive open_price high_price low_price then
    emit (StError "All prices must be positive values.")
  else
    let input_df := input_frame open_price high_price low_price in
    try_except
      (prediction ← Predictor_predict (predictor self) input_df;
       shown ← lift (format_2f w prediction);
       emit (StWrite ("The predicted closing price is: " +:+ shown)))
      [Exception]
      (λ e, emit (StError ("Prediction failed: " +:+ exn_str e))).

Definition GoldPriceApp_run (w : World) (self : GoldPriceApp) (i : Inputs) : M unit :=
  emit (StTitle "Gold Price Prediction");;
  emit (StSubheader "Last 4 Open, High, Low Prices");;
  preview ← get_head w (data_handler self) 4;
  emit (StTable preview);;
  emit (StSubheader "Enter Price Data");;
  open_price ← number_input "Open Price" 0 0.01 (in_open i);
  high_price ← number_input "High Price" 0 0.01 (in_high i);
  low_price ← number_input "Low Price" 0 0.01 (in_low i);
  clicked ← button "Predict" (in_predict i);
  match clicked with
  | true => predict_action w self open_price high_price low_price
  | false => mret tt
  end.

(** ** The application's states *)

Inductive phase : Type :=
  | Ready (app : GoldPriceApp)
  | Halted
  | Aborted (e : exn).

Definition phase_after {A} (o : outcome A) (ready : A → phase) : phase :=
  match o with
  | Ret a => ready a
  | Raise e => if decide (exn_cls e = StopException) then Halted else Aborted e
  end.

(** Initializing: construct the application. *)
Definition startup (w : World) (data_path model_path : string) (required : gset string)
  : phase * list event :=
  let m := GoldPriceApp_init w data_path model_path required in
  (phase_after (result m) Ready, trace m).

(** A predict trigger in the Ready state: the script runs with the button
    reported as clicked. *)
Definition predict_trigger (w : World) (app : GoldPriceApp)
    (open_price high_price low_price : float) : phase * list event :=
  let m := GoldPriceApp_run w app (mk_Inputs open_price high_price low_price true) in
  (phase_after (result m) (λ _, Ready app), trace m).

(** The frames handed to the model's [predict] in a trace. *)
Definition inferences (t : list event) : list DataFrame :=
  omap (λ ev, match ev with ModelPredict d => Some d | _ => None end) t.

(** The paths read, by [pd.read_csv] or by [open], in a trace. *)
Definition file_reads (t : list event) : list string :=
  omap (λ ev, match ev with PdReadCsv p | FsOpen p => Some p | _ => None end) t.

(** The messages shown with [st.error] in a trace. *)
Definition errors_shown (t : list event) : list string :=
  omap (λ ev, match ev with StError s => Some s | _ => None end) t.


(** ** Definitions used in the statements *)

(** What opening the model file and unpickling it gives. *)
Definition unpickle_file (w : World) (path : string) : exn + Model :=
  match fs_open_rb w path with
  | inl e => inl e
  | inr file => pickle_load w file
  end.

(** The events of opening and unpickling: the file is closed again when it
    could be opened. *)
Definition unpickle_events (w : World) (path : string) : list event :=
  match fs_open_rb w path with
  | inl _ => [FsOpen path]
  | inr _ => [FsOpen path; PickleLoad path; FsClose path]
  end.

(** The events of loading: file-system, pandas and pickle calls. *)
Definition is_io (ev : event) : bool :=
  match ev with
  | FsExists _ | PdReadCsv _ | FsOpen _ | FsClose _ | PickleLoad _ => true
  | _ => false
  end.

(** The classes named by the [except] clause of [__init__]. *)
Definition init_handles (e : exn) : bool :=
  isinstance e FileNotFoundError || isinstance e ValueError || isinstance e PickleError.

(** The events of [run] before the [Predict] button is looked at. *)
Definition run_prefix (preview : DataFrame) : list event :=
  [ StTitle "Gold Price Prediction";
    StSubheader "Last 4 Open, High, Low Prices";
    StTable preview;
    StSubheader "Enter Price Data";
    StNumberInput "Open Price" 0 0.01;
    StNumberInput "High Price" 0 0.01;
    StNumberInput "Low Price" 0 0.01;
    StButton "Predict" ].


(** ** A concrete environment

    A five-row price file, newest day first, with two columns beyond the
    required ones, and a model file whose artifact always estimates 1900 (so
    that 1900 is the only number ever formatted). Used to run the
    definitions on explicit inputs. *)

Definition price_row (date : string) (price open_price high_price low_price : float)
  : list value :=
  [VStr date; VFloat price; VFloat open_price; VFloat high_price; VFloat low_price].

Definition demo_frame : DataFrame :=
  mk_df ["Date"; "Price"; "Open"; "High"; "Low"]
        [ price_row "2024-01-05" 2050 2043 2064 2024;
          price_row "2024-01-04" 2043 2041 2051 2036;
          price_row "2024-01-03" 2041 2059 2065 2030;
          price_row "2024-01-02" 2059 2063 2079 2055;
          price_row "2024-01-01" 2063 2062 2070 2060 ].

Definition demo_model : Model := mk_model (λ _, inr [VFloat 1900]).

Definition demo_world : World :=
  {| fs_exists := λ p, bool_decide (p = "Gold_Price.csv" ∨ p = "svm_model.pkl");
     pd_read_csv := λ p,
       if decide (p = "Gold_Price.csv") then inr demo_frame
       else inl (mk_exn FileNotFoundError "No such file or directory");
     fs_open_rb := λ _, inr [];
     pickle_load := λ _, inr demo_model;
     str_path := id;
     str_set := λ s, "{" +:+ String.concat ", " ((λ c, "'" +:+ c +:+ "'") <$> elements s) +:+ "}";
     list_set := elements;
     list_set_perm := λ s, reflexivity (elements s);
     str_labels := λ l, "[" +:+ String.concat ", " ((λ c, "'" +:+ c +:+ "'") <$> l) +:+ "] not in index";
     format_2f := λ v, match v with
                       | VStr _ => inl (mk_exn ValueError "Unknown format code 'f' for object of type 'str'")
                       | _ => inr "1900.00"
                       end |}.

Definition demo_handler : DataHandler :=
  mk_DataHandler "Gold_Price.csv" default_required_columns demo_frame.

Definition demo_app : GoldPriceApp :=
  mk_GoldPriceApp demo_handler (mk_Predictor "svm_model.pkl" demo_model)
                  default_required_columns.

(** The environment [w] with another behaviour of [pickle.load]. *)
Definition with_pickle_load (w : World) (load : list Byte.byte → exn + Model) : World :=
  {| fs_exists := fs_exists w;
     pd_read_csv := pd_read_csv w;
     fs_open_rb := fs_open_rb w;
     pickle_load := load;
     str_path := str_path w;
     str_set := str_set w;
     list_set := list_set w;
     list_set_perm := list_set_perm w;
     str_labels := str_labels w;
     format_2f := format_2f w |}.

(** An environment whose model file is cut short: [pickle.load] runs out of
    input and raises [EOFError]. *)
Definition truncated_world : World :=
  with_pickle_load demo_world (λ _, inl (mk_exn EOFError "Ran out of input")).

(** An environment whose model file holds a malformed pickle stream:
    [pickle.load] raises [UnpicklingError]. *)
Definition malformed_world : World :=
  with_pickle_load demo_world (λ _, inl (mk_exn UnpicklingError "invalid load key, 'x'.")).

(** A model fitted on four features: its [predict] rejects the
    three-column frame with a [ValueError]. *)
Definition strict_model : Model :=
  mk_model (λ _, inl (mk_exn ValueError
                        "X has 3 features, but SVR is expecting 4 features as input.")).

Definition strict_world : World := with_pickle_load demo_world (λ _, inr strict_model).

Definition strict_app : GoldPriceApp :=
  mk_GoldPriceApp demo_handler (mk_Predictor "svm_model.pkl" strict_model)
                  default_required_columns.

(** An application configured to require only the [Price] column. *)
Definition price_only_app : GoldPriceApp :=
  mk_GoldPriceApp (mk_DataHandler "Gold_Price.csv" {["Price"]} demo_frame)
                  (mk_Predictor "svm_model.pkl" demo_model) {["Price"]}.

(** ** Further observations and environments *)

(** The texts put on the page by [st.write] in a trace. *)
Definition results_shown (t : list event) : list string :=
  omap (λ ev, match ev with StWrite s => Some s | _ => None end) t.

(** The texts put in the output area, by [st.write] or by [st.error]. *)
Definition messages_shown (t : list event) : list string :=
  omap (λ ev, match ev with StWrite s | StError s => Some s | _ => None end) t.

(** The environment [w] with another behaviour of [pd.read_csv]. *)
Definition with_read_csv (w : World) (rd : string → exn + DataFrame) : World :=
  {| fs_exists := fs_exists w;
     pd_read_csv := rd;
     fs_open_rb := fs_open_rb w;
     pickle_load := pickle_load w;
     str_path := str_path w;
     str_set := str_set w;
     list_set := list_set w;
     list_set_perm := list_set_perm w;
     str_labels := str_labels w;
     format_2f := format_2f w |}.

(** The environment [w] with another behaviour of [open]. *)
Definition with_open_rb_result (w : World) (op : string → exn + list Byte.byte) : World :=
  {| fs_exists := fs_exists w;
     pd_read_csv := pd_read_csv w;
     fs_open_rb := op;
     pickle_load := pickle_load w;
     str_path := str_path w;
     str_set := str_set w;
     list_set := list_set w;
     list_set_perm := list_set_perm w;
     str_labels := str_labels w;
     format_2f := format_2f w |}.

(** An environment whose price file cannot be tokenized: [pd.read_csv]
    raises pandas' [ParserError]. *)
Definition garbled_world : World :=
  with_read_csv demo_world
    (λ _, inl (mk_exn ParserError "Error tokenizing data. C error: Expected 5 fields")).

(** An environment whose model file may not be read. *)
Definition locked_world : World :=
  with_open_rb_result demo_world
    (λ _, inl (mk_exn PermissionError "[Errno 13] Permission denied: 'svm_model.pkl'")).

(** An environment in which Python iterates sets the other way round. *)
Definition reversed_world : World :=
  {| fs_exists := fs_exists demo_world;
     pd_read_csv := pd_read_csv demo_world;
     fs_open_rb := fs_open_rb demo_world;
     pickle_load := pickle_load demo_world;
     str_path := str_path demo_world;
     str_set := str_set demo_world;
     list_set := λ s, reverse (elements s);
     list_set_perm := λ s, reverse_Permutation (elements s);
     str_labels := str_labels demo_world;
     format_2f := format_2f demo_world |}.

(** A model whose [predict] returns an empty array. *)
Definition silent_model : Model := mk_model (λ _, inr []).

Definition silent_world : World := with_pickle_load demo_world (λ _, inr silent_model).

Definition silent_app : GoldPriceApp :=
  mk_GoldPriceApp demo_handler (mk_Predictor "svm_model.pkl" silent_model)
                  default_required_columns.

(** A classifier: its [predict] returns a label, not a number. *)
Definition label_model : Model := mk_model (λ _, inr [VStr "up"]).

Definition label_world : World := with_pickle_load demo_world (λ _, inr label_model).

Definition label_app : GoldPriceApp :=
  mk_GoldPriceApp demo_handler (mk_Predictor "svm_model.pkl" label_model)
                  default_required_columns.

(** ** The application with a model that has internal state

    [self.predictor.model] is an object: a call of its [predict] may read
    and change what the object holds, and the next call finds it as the last
    one left it. To follow one application object through several predict
    actions, the model is given a state of type [S], and [predict] and [run]
    are written as they are in the source, passing the application object
    along. *)

Record Estimator (S : Type) : Type := mk_Estimator {
  est_state : S;
  est_predict : S → DataFrame → (exn + list value) * S
}.
Arguments mk_Estimator {S} _ _.
Arguments est_state {S} _.
Arguments est_predict {S} _ _ _.

Record StatefulPredictor (S : Type) : Type := mk_StatefulPredictor {
  sp_model_path : string;
  sp_model : Estimator S
}.
Arguments mk_StatefulPredictor {S} _ _.
Arguments sp_model_path {S} _.
Arguments sp_model {S} _.

Record StatefulApp (S : Type) : Type := mk_StatefulApp {
  sa_data_handler : DataHandler;
  sa_predictor : StatefulPredictor S;
  sa_required_columns : gset string
}.
Arguments mk_StatefulApp {S} _ _ _.
Arguments sa_data_handler {S} _.
Arguments sa_predictor {S} _.
Arguments sa_required_columns {S} _.

(** A computation on the application object: its outcome and events, and the
    object as it leaves it. *)
Definition MS (S A : Type) : Type := StatefulApp S → M A * StatefulApp S.

Definition ret_on {S A} (a : A) : MS S A := λ self, (mret a, self).

Definition bind_on {S A B} (m : MS S A) (f : A → MS S B) : MS S B := λ self,
  match m self with
  | ((Ret a, t), self') => let r := f a self' in ((r.1.1, t ++ r.1.2), r.2)
  | ((Raise e, t), self') => ((Raise e, t), self')
  end.

(** A computation that does not touch the application object. *)
Definition stateless {S A} (m : M A) : MS S A := λ self, (m, self).

(** [try: m  except <classes> as e: h e], on the application object. *)
Definition try_except_on {S A} (m : MS S A) (classes : list exn_class)
    (h : exn → MS S A) : MS S A := λ self,
  match m self with
  | ((Ret a, t), self') => ((Ret a, t), self')
  | ((Raise e, t), self') =>
      if existsb (isinstance e) classes
      then let r := h e self' in ((r.1.1, t ++ r.1.2), r.2)
      else ((Raise e, t), self')
  end.

(** [self.model.predict(input_data)[0]] in [Predictor.predict]: the value,
    and the predictor with the model as the call left it. *)
Definition Predictor_predict_on {S} (self : StatefulPredictor S) (input_data : DataFrame)
  : M value * StatefulPredictor S :=
  let r := est_predict (sp_model self) (est_state (sp_model self)) input_data in
  (out ← (emit (ModelPredict input_data);; lift r.1); first_item out,
   mk_StatefulPredictor (sp_model_path self)
                        (mk_Estimator r.2 (est_predict (sp_model self)))).

(** [self.predictor.predict(input_df)] in [run]. *)
Definition call_predictor {S} (input_df : DataFrame) : MS S value := λ self,
  let r := Predictor_predict_on (sa_predictor self) input_df in
  (r.1, mk_StatefulApp (sa_data_handler self) r.2 (sa_required_columns self)).

(** The body of [if st.button('Predict'):] in [run]. *)
Definition predict_action_on {S} (w : World) (open_price high_price low_price : float)
  : MS S unit :=
  if any_not_positive open_price high_price low_price then
    stateless (emit (StError "All prices must be positive values."))
  else
    let input_df := input_frame open_price high_price low_price in
    try_except_on
      (bind_on (call_predictor input_df) (λ prediction,
       stateless (shown ← lift (format_2f w prediction);
                  emit (StWrite ("The predicted closing price is: " +:+ shown)))))
      [Exception]
      (λ e, stateless (emit (StError ("Prediction failed: " +:+ exn_str e)))).

(** [run], up to the reading of the button. *)
Definition run_page (w : World) (dh : DataHandler) (i : Inputs)
  : M (float * float * float * bool) :=
  emit (StTitle "Gold Price Prediction");;
  emit (StSubheader "Last 4 Open, High, Low Prices");;
  preview ← get_head w dh 4;
  emit (StTable preview);;
  emit (StSubheader "Enter Price Data");;
  open_price ← number_input "Open Price" 0 0.01 (in_open i);
  high_price ← number_input "High Price" 0 0.01 (in_high i);
  low_price ← number_input "Low Price" 0 0.01 (in_low i);
  clicked ← button "Predict" (in_predict i);
  mret (open_price, high_price, low_price, clicked).

Definition GoldPriceApp_run_on {S} (w : World) (i : Inputs) : MS S unit := λ self,
  bind_on (stateless (run_page w (sa_data_handler self) i))
          (λ '(open_price, high_price, low_price, clicked),
             match clicked with
             | true => predict_action_on w open_price high_price low_price
             | false => ret_on tt
             end) self.

(** The application object with its model as it behaves in its present
    state. *)
Definition present_app {S} (self : StatefulApp S) : GoldPriceApp :=
  mk_GoldPriceApp
    (sa_data_handler self)
    (mk_Predictor (sp_model_path (sa_predictor self))
       (mk_model (λ d, (est_predict (sp_model (sa_predictor self))
                                    (est_state (sp_model (sa_predictor self))) d).1)))
    (sa_required_columns self).

(** The application object after one call of its model's [predict] on
    [input]. *)
Definition after_call {S} (self : StatefulApp S) (input : DataFrame) : StatefulApp S :=
  mk_StatefulApp
    (sa_data_handler self)
    (mk_StatefulPredictor
       (sp_model_path (sa_predictor self))
       (mk_Estimator (est_predict (sp_model (sa_predictor self))
                                  (est_state (sp_model (sa_predictor self))) input).2
                     (est_predict (sp_model (sa_predictor self)))))
    (sa_required_columns self).

(** A model that keeps nothing: it always estimates 1900. *)
Definition steady_estimator : Estimator unit :=
  mk_Estimator tt (λ s _, (inr [VFloat 1900], s)).

Definition steady_app : StatefulApp unit :=
  mk_StatefulApp demo_handler (mk_StatefulPredictor "svm_model.pkl" steady_estimator)
                 default_required_columns.

(** A model that counts its calls and refuses the second one. *)
Definition one_shot_estimator : Estimator nat :=
  mk_Estimator 0 (λ calls _,
    (match calls with
     | O => inr [VFloat 1900]
     | S _ => inl (mk_exn ValueError "model already used")
     end, S calls)).

Definition one_shot_app : StatefulApp nat :=
  mk_StatefulApp demo_handler (mk_StatefulPredictor "svm_model.pkl" one_shot_estimator)
                 default_required_columns.

(** * Properties *)

(** The methods are unfolded by name in the proofs, never by [cbn]. *)
Global Arguments getitem_columns : simpl never.
Global Arguments DataHandler_load_data : simpl never.
Global Arguments DataHandler_init : simpl never.
Global Arguments get_head : simpl never.
Global Arguments Predictor_load_model : simpl never.
Global Arguments Predictor_init : simpl never.
Global Arguments Predictor_predict : simpl never.
Global Arguments GoldPriceApp_construct : simpl never.
Global Arguments GoldPriceApp_init : simpl never.
Global Arguments predict_action : simpl never.
Global Arguments GoldPriceApp_run : simpl never.

(** ** The effect monad *)

Lemma bind_Ret {A B} (m : M A) (f : A → M B) a t :
  m = (Ret a, t) → m ≫= f = (result (f a), t ++ trace (f a)).
Proof. by intros ->. Qed.

Lemma bind_Raise {A B} (m : M A) (f : A → M B) e t :
  m = (Raise e, t) → m ≫= f = (Raise e, t).
Proof. by intros ->. Qed.

Lemma bind_Ret_inv {A B} (m : M A) (f : A → M B) b t :
  m ≫= f = (Ret b, t) →
  ∃ a t1 t2, m = (Ret a, t1) ∧ f a = (Ret b, t2) ∧ t = t1 ++ t2.
Proof.
  destruct m as [[a|e] t1]; cbn; [|done].
  destruct (f a) as [o t2] eqn:Hf; cbn. intros [= -> <-]. by exists a, t1, t2.
Qed.

(** ** DataHandler *)

Section data_handler.
Context (w : World).

Lemma load_data_missing path required :
  fs_exists w path = false →
  DataHandler_load_data w path required
  = (Raise (mk_exn FileNotFoundError ("File not found: " +:+ str_path w path)),
     [FsExists path]).
Proof. intros H. unfold DataHandler_load_data, path_exists. cbn. by rewrite H. Qed.

Lemma load_data_read_fails path required e :
  fs_exists w path = true → pd_read_csv w path = inl e →
  DataHandler_load_data w path required = (Raise e, [FsExists path; PdReadCsv path]).
Proof.
  intros H1 H2. unfold DataHandler_load_data, path_exists, read_csv. cbn.
  by rewrite H1, H2.
Qed.

Lemma load_data_read path required d :
  fs_exists w path = true → pd_read_csv w path = inr d →
  DataHandler_load_data w path required
  = (if issubset required (columns d) then Ret d
     else Raise (mk_exn ValueError
                   ("CSV file must contain these columns: " +:+ str_set w required)),
     [FsExists path; PdReadCsv path]).
Proof.
  intros H1 H2. unfold DataHandler_load_data, path_exists, read_csv. cbn.
  rewrite H1, H2. cbn. by destruct (issubset _ _).
Qed.

(** What a successfully constructed [DataHandler] holds. *)
Lemma DataHandler_init_Ret path required dh t :
  DataHandler_init w path required = (Ret dh, t) →
  dh = mk_DataHandler path required (df dh) ∧
  fs_exists w path = true ∧
  pd_read_csv w path = inr (df dh) ∧
  required ⊆ list_to_set (columns (df dh)) ∧
  t = [FsExists path; PdReadCsv path].
Proof.
  unfold DataHandler_init. intros (d & t1 & t2 & Hload & [= <- <-] & ->)%bind_Ret_inv.
  destruct (fs_exists w path) eqn:Hex; [|by rewrite load_data_missing in Hload].
  destruct (pd_read_csv w path) as [e|d'] eqn:Hrd.
  { by rewrite (load_data_read_fails _ _ e) in Hload. }
  rewrite (load_data_read _ _ d') in Hload by done.
  destruct (issubset required (columns d')) eqn:Hsub; [|done].
  injection Hload as -> <-. cbn. repeat split; try done.
  by apply bool_decide_eq_true in Hsub.
Qed.
End data_handler.

(** C5. When the dataset path does not exist, constructing the [DataHandler]
    raises [FileNotFoundError], and the only thing done was the existence
    test: nothing was read. *)
Theorem DataHandler_init_missing_path (w : World) (path : string) (required : gset string) :
  fs_exists w path = false →
  result (DataHandler_init w path required)
  = Raise (mk_exn FileNotFoundError ("File not found: " +:+ str_path w path)) ∧
  trace (DataHandler_init w path required) = [FsExists path] ∧
  file_reads (trace (DataHandler_init w path required)) = [].
Proof.
  intros H. unfold DataHandler_init. by rewrite (load_data_missing w _ _ H).
Qed.

Lemma DataHandler_init_missing_path_witness :
  fs_exists demo_world "Gold.csv" = false ∧
  result (DataHandler_init demo_world "Gold.csv" default_required_columns)
  = Raise (mk_exn FileNotFoundError "File not found: Gold.csv") ∧
  file_reads (trace (DataHandler_init demo_world "Gold.csv" default_required_columns)) = [].
Proof.
  split; [reflexivity|].
  destruct (DataHandler_init_missing_path demo_world "Gold.csv" default_required_columns)
    as (Hr & _ & Hf); [reflexivity|].
  split; [exact Hr | exact Hf].
Defined.

(** C6. When the dataset file exists and was read, but its columns lack at
    least one of the required names, constructing the [DataHandler] raises
    [ValueError] (the schema error). *)
Theorem DataHandler_init_missing_column (w : World) (path : string)
    (required : gset string) (d : DataFrame) (c : string) :
  fs_exists w path = true →
  pd_read_csv w path = inr d →
  c ∈ required → c ∉ columns d →
  result (DataHandler_init w path required)
  = Raise (mk_exn ValueError
             ("CSV file must contain these columns: " +:+ str_set w required)).
Proof.
  intros Hex Hrd Hc Hmiss. unfold DataHandler_init.
  rewrite (load_data_read w _ _ d Hex Hrd).
  assert (issubset required (columns d) = false) as ->; [|done].
  apply bool_decide_eq_false. intros Hsub. apply Hmiss.
  by apply (elem_of_list_to_set (C := gset string)), Hsub.
Qed.

Lemma DataHandler_init_missing_column_witness :
  result (DataHandler_init demo_world "Gold_Price.csv" {["Open"; "Volume"]})
  = Raise (mk_exn ValueError
             ("CSV file must contain these columns: "
              +:+ str_set demo_world {["Open"; "Volume"]})).
Proof.
  apply (DataHandler_init_missing_column demo_world "Gold_Price.csv" _ demo_frame "Volume").
  - reflexivity.
  - reflexivity.
  - vm_compute. reflexivity.
  - apply (bool_decide_unpack _). vm_compute. reflexivity.
Defined.

(** ** Column selection and [head] *)



Lemma filter_eq_NoDup (c : string) (cols : list string) :
  NoDup cols → c ∈ cols → filter (λ c', c' = c) cols = [c].
Proof.
  induction 1 as [|x l Hx Hl IH]; [by intros ?%elem_of_nil|].
  intros [->|Hin]%elem_of_cons.
  - rewrite filter_cons_True by done. f_equal.
    clear IH Hl. induction l as [|y l IH]; [done|].
    apply not_elem_of_cons in Hx as [Hne Hx].
    rewrite filter_cons_False by (intros ->; done). auto.
  - rewrite filter_cons_False; [auto|]. intros ->. done.
Qed.

Lemma bind_filter_eq_NoDup (labels cols : list string) :
  NoDup cols → labels ⊆ cols →
  labels ≫= (λ c, filter (λ c', c' = c) cols) = labels.
Proof.
  intros Hnd. induction labels as [|c labels IH]; intros Hsub; [done|].
  rewrite bind_cons, filter_eq_NoDup; [|done|set_solver].
  cbn. f_equal. apply IH. set_solver.
Qed.



Lemma list_set_elem_of (w : World) (s : gset string) (c : string) :
  c ∈ list_set w s ↔ c ∈ s.
Proof. by rewrite (list_set_perm w s), elem_of_elements. Qed.

Lemma list_set_NoDup (w : World) (s : gset string) : NoDup (list_set w s).
Proof. rewrite (list_set_perm w s). apply NoDup_elements. Qed.

Lemma getitem_columns_present (w : World) (d : DataFrame) (labels : list string) :
  labels ⊆ columns d →
  getitem_columns w d labels
  = (Ret (mk_df (labels ≫= (λ c, filter (λ c', c' = c) (columns d)))
                (select_row labels (columns d) <$> rows d)), []).
Proof.
  intros Hsub. unfold getitem_columns.
  assert (filter (λ c, c ∉ columns d) labels = []) as ->; [|done].
  destruct (filter _ labels) as [|c rest] eqn:Hf; [done|].
  assert (c ∈ filter (λ c, c ∉ columns d) labels) as [Hn Hc]%list_elem_of_filter
    by (rewrite Hf; left).
  by destruct Hn; apply Hsub.
Qed.

Lemma getitem_columns_absent (w : World) (d : DataFrame) (labels : list string) (c : string) :
  c ∈ labels → c ∉ columns d →
  result (getitem_columns w d labels)
  = Raise (mk_exn KeyError (str_labels w (filter (λ c, c ∉ columns d) labels))).
Proof.
  intros Hc Hn. unfold getitem_columns.
  destruct (decide (filter _ labels = [])) as [Hnil|]; [|done].
  exfalso. by apply (filter_nil_not_elem_of _ _ c Hnil Hn).
Qed.


(** [get_head] on a handler whose frame carries every required column. *)
Lemma get_head_present (w : World) (dh : DataHandler) (n : Z) :
  required_columns dh ⊆ list_to_set (columns (df dh)) →
  get_head w dh n
  = (Ret (mk_df (list_set w (required_columns dh)
                   ≫= (λ c, filter (λ c', c' = c) (columns (df dh))))
                (slice_to n (select_row (list_set w (required_columns dh))
                                        (columns (df dh)) <$> rows (df dh)))), []).
Proof.
  intros Hsub. unfold get_head. rewrite getitem_columns_present; [done|].
  intros c Hc%list_set_elem_of. by apply (elem_of_list_to_set (C := gset string)), Hsub.
Qed.



(** The preview of the five-row file: rows 0 to 3, three columns. *)
Example get_head_demo :
  get_head demo_world demo_handler 4
  = (Ret (mk_df ["Open"; "Low"; "High"]
                [ [VFloat 2043; VFloat 2024; VFloat 2064];
                  [VFloat 2041; VFloat 2036; VFloat 2051];
                  [VFloat 2059; VFloat 2030; VFloat 2065];
                  [VFloat 2063; VFloat 2055; VFloat 2079] ]), []).
Proof. vm_compute. reflexivity. Qed.

(** ** Predictor *)

Lemma load_model_missing (w : World) (path : string) :
  fs_exists w path = false →
  Predictor_load_model w path
  = (Raise (mk_exn FileNotFoundError ("Model file not found: " +:+ str_path w path)),
     [FsExists path]).
Proof. intros H. unfold Predictor_load_model, path_exists. cbn. by rewrite H. Qed.

Lemma load_model_loaded (w : World) (path : string) (m : Model) :
  fs_exists w path = true → unpickle_file w path = inr m →
  Predictor_load_model w path = (Ret m, FsExists path :: unpickle_events w path).
Proof.
  intros Hex Hun. unfold Predictor_load_model, path_exists, with_open_rb,
    unpickle_file, unpickle_events in *. cbn. rewrite Hex. cbn.
  destruct (fs_open_rb w path) as [e|file]; [done|]. cbn. by rewrite Hun.
Qed.

Lemma load_model_fails (w : World) (path : string) (e : exn) :
  fs_exists w path = true → unpickle_file w path = inl e →
  Predictor_load_model w path
  = (Raise (if isinstance e PickleError
            then mk_exn PickleError ("Failed to load model: " +:+ exn_str e)
            else e),
     FsExists path :: unpickle_events w path).
Proof.
  intros Hex Hun. unfold Predictor_load_model, path_exists, with_open_rb,
    unpickle_file, unpickle_events in *. cbn. rewrite Hex. cbn.
  destruct (fs_open_rb w path) as [e'|file]; cbn.
  - injection Hun as ->. by destruct (isinstance e PickleError).
  - rewrite Hun. cbn. by destruct (isinstance e PickleError).
Qed.

(** The outcomes of [Predictor.__init__] as the code has them: a missing
    path raises [FileNotFoundError]; an error of the [pickle.PickleError]
    class raised while opening or unpickling is raised again as
    [pickle.PickleError]; the [except] clause names no other class, so an
    error of another class passes through it; a model that unpickles is
    stored. *)
Theorem Predictor_init_outcomes (w : World) (path : string) :
  (fs_exists w path = false →
   result (Predictor_init w path)
   = Raise (mk_exn FileNotFoundError ("Model file not found: " +:+ str_path w path))) ∧
  (∀ e, fs_exists w path = true → unpickle_file w path = inl e →
        isinstance e PickleError = true →
        result (Predictor_init w path)
        = Raise (mk_exn PickleError ("Failed to load model: " +:+ exn_str e))) ∧
  (∀ e, fs_exists w path = true → unpickle_file w path = inl e →
        isinstance e PickleError = false →
        result (Predictor_init w path) = Raise e) ∧
  (∀ m, fs_exists w path = true → unpickle_file w path = inr m →
        result (Predictor_init w path) = Ret (mk_Predictor path m)).
Proof.
  unfold Predictor_init. repeat split.
  - intros H. by rewrite load_model_missing.
  - intros e Hex Hun Hcls. by rewrite (load_model_fails w path e), Hcls.
  - intros e Hex Hun Hcls. by rewrite (load_model_fails w path e), Hcls.
  - intros m Hex Hun. by rewrite (load_model_loaded w path m).
Qed.

Lemma Predictor_init_outcomes_witness :
  result (Predictor_init demo_world "model.pkl")
  = Raise (mk_exn FileNotFoundError "Model file not found: model.pkl") ∧
  result (Predictor_init malformed_world "svm_model.pkl")
  = Raise (mk_exn PickleError "Failed to load model: invalid load key, 'x'.") ∧
  result (Predictor_init truncated_world "svm_model.pkl")
  = Raise (mk_exn EOFError "Ran out of input") ∧
  result (Predictor_init demo_world "svm_model.pkl")
  = Ret (mk_Predictor "svm_model.pkl" demo_model).
Proof.
  split; [|split; [|split]].
  - destruct (Predictor_init_outcomes demo_world "model.pkl") as (H & _).
    apply H. reflexivity.
  - destruct (Predictor_init_outcomes malformed_world "svm_model.pkl") as (_ & H & _).
    apply (H (mk_exn UnpicklingError "invalid load key, 'x'.")); reflexivity.
  - destruct (Predictor_init_outcomes truncated_world "svm_model.pkl") as (_ & _ & H & _).
    apply H; reflexivity.
  - destruct (Predictor_init_outcomes demo_world "svm_model.pkl") as (_ & _ & _ & H).
    apply H; reflexivity.
Defined.

(** C4, at a model file cut short. The file exists and is empty;
    [pickle.load] runs out of input and raises [EOFError]; [_load_model]
    catches [pickle.PickleError] only, so the constructor fails with that
    [EOFError], which is neither a [FileNotFoundError] nor a
    [pickle.PickleError]. The docstring of [Predictor.__init__] announces
    [pickle.PickleError] for a model that cannot be deserialized. *)
Theorem Predictor_init_truncated_file :
  fs_exists truncated_world "svm_model.pkl" = true ∧
  fs_open_rb truncated_world "svm_model.pkl" = inr [] ∧
  unpickle_file truncated_world "svm_model.pkl"
  = inl (mk_exn EOFError "Ran out of input") ∧
  Predictor_init truncated_world "svm_model.pkl"
  = (Raise (mk_exn EOFError "Ran out of input"),
     [FsExists "svm_model.pkl"; FsOpen "svm_model.pkl"; PickleLoad "svm_model.pkl";
      FsClose "svm_model.pkl"]) ∧
  isinstance (mk_exn EOFError "Ran out of input") PickleError = false ∧
  isinstance (mk_exn EOFError "Ran out of input") FileNotFoundError = false.
Proof. repeat split. Qed.

(** ** Start-up *)

Lemma io_shows_nothing (t : list event) :
  forallb is_io t = true → errors_shown t = [] ∧ inferences t = [] ∧ StStop ∉ t.
Proof.
  induction t as [|ev t IH]; cbn; [by repeat split; try apply not_elem_of_nil|].
  intros [Hev Ht]%andb_true_iff. destruct (IH Ht) as (He & Hi & Hs).
  unfold errors_shown, inferences in *. cbn.
  destruct ev; try discriminate; cbn; rewrite ?He, ?Hi; repeat split; try done.
  all: by apply not_elem_of_cons.
Qed.

Lemma DataHandler_init_io (w : World) (path : string) (required : gset string) :
  forallb is_io (trace (DataHandler_init w path required)) = true.
Proof.
  unfold DataHandler_init.
  destruct (fs_exists w path) eqn:Hex; [|by rewrite load_data_missing].
  destruct (pd_read_csv w path) as [e|d] eqn:Hrd.
  - by rewrite (load_data_read_fails w _ _ e).
  - rewrite (load_data_read w _ _ d) by done. by destruct (issubset _ _).
Qed.

Lemma Predictor_init_io (w : World) (path : string) :
  forallb is_io (trace (Predictor_init w path)) = true.
Proof.
  unfold Predictor_init.
  destruct (fs_exists w path) eqn:Hex; [|by rewrite load_model_missing].
  destruct (unpickle_file w path) as [e|m] eqn:Hun.
  - rewrite (load_model_fails w path e) by done. cbn.
    unfold unpickle_events. by destruct (fs_open_rb w path).
  - rewrite (load_model_loaded w path m) by done. cbn.
    unfold unpickle_events. by destruct (fs_open_rb w path).
Qed.

Lemma construct_unfold (w : World) (data_path model_path : string) (required : gset string) :
  GoldPriceApp_construct w data_path model_path required
  = match DataHandler_init w data_path required with
    | (Raise e, t) => (Raise e, t)
    | (Ret dh, t) =>
        match Predictor_init w model_path with
        | (Raise e, t') => (Raise e, t ++ t')
        | (Ret pr, t') => (Ret (mk_GoldPriceApp dh pr required), t ++ t')
        end
    end.
Proof.
  unfold GoldPriceApp_construct.
  destruct (DataHandler_init w data_path required) as [[dh|e] t]; cbn; [|done].
  destruct (Predictor_init w model_path) as [[pr|e] t']; cbn; [|done].
  by rewrite app_nil_r.
Qed.

Lemma construct_io (w : World) (data_path model_path : string) (required : gset string) :
  forallb is_io (trace (GoldPriceApp_construct w data_path model_path required)) = true.
Proof.
  rewrite construct_unfold.
  pose proof (DataHandler_init_io w data_path required) as H1.
  pose proof (Predictor_init_io w model_path) as H2.
  destruct (DataHandler_init w data_path required) as [[dh|e] t]; [|done].
  destruct (Predictor_init w model_path) as [[pr|e] t']; cbn in *;
    rewrite forallb_app; by rewrite H1, H2.
Qed.

(** C10. When loading the dataset or the model raises [e] during
    construction of the application: if [e] is a [FileNotFoundError], a
    [ValueError] or a [pickle.PickleError], its message is displayed and the
    application halts; if [e] is of any other class, nothing is displayed
    and [e] itself leaves the constructor. *)
Theorem GoldPriceApp_init_failure (w : World) (data_path model_path : string)
    (required : gset string) (e : exn) (t : list event) :
  GoldPriceApp_construct w data_path model_path required = (Raise e, t) →
  (init_handles e = true →
   startup w data_path model_path required
   = (Halted, t ++ [StError (exn_str e); StStop]) ∧
   errors_shown (startup w data_path model_path required).2 = [exn_str e]) ∧
  (init_handles e = false →
   GoldPriceApp_init w data_path model_path required = (Raise e, t) ∧
   errors_shown t = [] ∧ StStop ∉ t).
Proof.
  intros Hc.
  pose proof (construct_io w data_path model_path required) as Hio.
  rewrite Hc in Hio. cbn in Hio. apply io_shows_nothing in Hio as (Herr & _ & Hstop).
  unfold startup, GoldPriceApp_init, init_handles. rewrite Hc. cbn.
  rewrite orb_false_r, orb_assoc. split; intros ->; cbn; [|done].
  split; [done|]. unfold errors_shown in *. by rewrite omap_app, Herr.
Qed.

(** The class of failure decides: an unpickling error halts with a message,
    a truncated artifact aborts the constructor with [EOFError]. *)
Lemma GoldPriceApp_init_failure_witness :
  (startup malformed_world default_data_path default_model_path default_required_columns
   = (Halted,
      [FsExists "Gold_Price.csv"; PdReadCsv "Gold_Price.csv"; FsExists "svm_model.pkl";
       FsOpen "svm_model.pkl"; PickleLoad "svm_model.pkl"; FsClose "svm_model.pkl"]
      ++ [StError "Failed to load model: invalid load key, 'x'."; StStop])) ∧
  (GoldPriceApp_init truncated_world default_data_path default_model_path
     default_required_columns
   = (Raise (mk_exn EOFError "Ran out of input"),
      [FsExists "Gold_Price.csv"; PdReadCsv "Gold_Price.csv"; FsExists "svm_model.pkl";
       FsOpen "svm_model.pkl"; PickleLoad "svm_model.pkl"; FsClose "svm_model.pkl"])).
Proof.
  split.
  - refine (proj1 (proj1 (GoldPriceApp_init_failure malformed_world default_data_path
      default_model_path default_required_columns
      (mk_exn PickleError "Failed to load model: invalid load key, 'x'.") _ _) _)).
    + vm_compute. reflexivity.
    + reflexivity.
  - refine (proj1 (proj2 (GoldPriceApp_init_failure truncated_world default_data_path
      default_model_path default_required_columns
      (mk_exn EOFError "Ran out of input") _ _) _)).
    + vm_compute. reflexivity.
    + reflexivity.
Defined.

(** ** Prices *)

(** A strictly positive binary64 value is not [<= 0] (a NaN is neither). *)
Lemma positive_not_le_zero (x : float) :
  (0 <? x)%float = true → (x <=? 0)%float = false.
Proof.
  rewrite ltb_spec, leb_spec.
  change (Prim2SF 0) with (S754_zero false).
  by destruct (Prim2SF x) as [s|s| |s m e]; try destruct s.
Qed.

Lemma all_positive_valid (open_price high_price low_price : float) :
  (0 <? open_price)%float = true →
  (0 <? high_price)%float = true →
  (0 <? low_price)%float = true →
  any_not_positive open_price high_price low_price = false.
Proof.
  intros Ho Hh Hl. unfold any_not_positive.
  by rewrite !positive_not_le_zero.
Qed.

Lemma any_not_positive_true (open_price high_price low_price : float) :
  any_not_positive open_price high_price low_price = true ↔
  (open_price <=? 0)%float = true ∨ (high_price <=? 0)%float = true
  ∨ (low_price <=? 0)%float = true.
Proof. unfold any_not_positive. rewrite !orb_true_iff. tauto. Qed.

(** ** The predict action *)

Lemma Predictor_predict_unfold (self : Predictor) (input : DataFrame) :
  Predictor_predict self input
  = (match model_predict (model self) input with
     | inl e => Raise e
     | inr [] => Raise (mk_exn IndexError "index 0 is out of bounds for axis 0 with size 0")
     | inr (v :: _) => Ret v
     end, [ModelPredict input]).
Proof.
  unfold Predictor_predict. cbn.
  by destruct (model_predict (model self) input) as [e|[|v out]].
Qed.

Lemma predict_action_invalid (w : World) (self : GoldPriceApp) (o h l : float) :
  any_not_positive o h l = true →
  predict_action w self o h l = (Ret tt, [StError "All prices must be positive values."]).
Proof. intros H. unfold predict_action. by rewrite H. Qed.

(** The outcome of the [try] statement of the predict action, by what the
    inference call and then the formatting give. *)
Lemma predict_action_valid (w : World) (self : GoldPriceApp) (o h l : float) :
  any_not_positive o h l = false →
  predict_action w self o h l
  = let input := input_frame o h l in
    let caught e :=
      if isinstance e Exception
      then (Ret tt, [ModelPredict input; StError ("Prediction failed: " +:+ exn_str e)])
      else (Raise e, [ModelPredict input]) in
    match result (Predictor_predict (predictor self) input) with
    | Raise e => caught e
    | Ret v =>
        match format_2f w v with
        | inl e => caught e
        | inr s => (Ret tt, [ModelPredict input;
                             StWrite ("The predicted closing price is: " +:+ s)])
        end
    end.
Proof.
  intros H. unfold predict_action. rewrite H, Predictor_predict_unfold. cbn.
  destruct (model_predict _ _) as [e|[|v out]]; cbn.
  - by destruct (isinstance e Exception).
  - by destruct (isinstance _ Exception).
  - destruct (format_2f w v) as [e|s]; cbn; [|done].
    by destruct (isinstance e Exception).
Qed.


Lemma predict_action_valid_inferences (w : World) (self : GoldPriceApp) (o h l : float) :
  any_not_positive o h l = false →
  inferences (trace (predict_action w self o h l)) = [input_frame o h l].
Proof.
  intros Hv. rewrite predict_action_valid by done. cbn.
  destruct (result _) as [v|e]; [destruct (format_2f w v) as [e|s]|];
    try destruct (isinstance e Exception); done.
Qed.

(** ** The script run *)

Lemma run_unfold (w : World) (self : GoldPriceApp) (i : Inputs) (preview : DataFrame) :
  get_head w (data_handler self) 4 = (Ret preview, []) →
  GoldPriceApp_run w self i
  = if in_predict i
    then (result (predict_action w self (in_open i) (in_high i) (in_low i)),
          run_prefix preview
          ++ trace (predict_action w self (in_open i) (in_high i) (in_low i)))
    else (Ret tt, run_prefix preview).
Proof.
  intros Hhead. unfold GoldPriceApp_run. rewrite Hhead. cbn.
  by destruct (in_predict i).
Qed.

(** What holds of an application that reached the Ready state. *)
Lemma startup_Ready (w : World) (data_path model_path : string) (required : gset string)
    (app : GoldPriceApp) :
  (startup w data_path model_path required).1 = Ready app →
  result (DataHandler_init w data_path required) = Ret (data_handler app) ∧
  result (Predictor_init w model_path) = Ret (predictor app) ∧
  app_required_columns app = required.
Proof.
  unfold startup, GoldPriceApp_init. rewrite construct_unfold. cbn.
  destruct (DataHandler_init w data_path required) as [[dh|e] t]; cbn.
  - destruct (Predictor_init w model_path) as [[pr|e] t']; cbn.
    + by intros [= <-].
    + destruct (_ || _); cbn; [done|]. by case_decide.
  - destruct (_ || _); cbn; [done|]. by case_decide.
Qed.

Lemma Ready_preview (w : World) (data_path model_path : string) (required : gset string)
    (app : GoldPriceApp) :
  (startup w data_path model_path required).1 = Ready app →
  ∃ preview, get_head w (data_handler app) 4 = (Ret preview, []).
Proof.
  intros (Hdh & _ & _)%startup_Ready.
  destruct (DataHandler_init w data_path required) as [o t] eqn:Hi. cbn in Hdh. subst o.
  apply DataHandler_init_Ret in Hi as (Hrec & _ & _ & Hsub & _).
  eexists. apply get_head_present. by rewrite Hrec.
Qed.

Lemma predict_trigger_unfold (w : World) (app : GoldPriceApp) (o h l : float)
    (preview : DataFrame) :
  get_head w (data_handler app) 4 = (Ret preview, []) →
  predict_trigger w app o h l
  = (phase_after (result (predict_action w app o h l)) (λ _, Ready app),
     run_prefix preview ++ trace (predict_action w app o h l)).
Proof. intros Hhead. unfold predict_trigger. by rewrite (run_unfold w app _ preview). Qed.

Lemma inferences_run_prefix (preview : DataFrame) (t : list event) :
  inferences (run_prefix preview ++ t) = inferences t.
Proof. done. Qed.

Lemma errors_shown_run_prefix (preview : DataFrame) (t : list event) :
  errors_shown (run_prefix preview ++ t) = errors_shown t.
Proof. done. Qed.


(** C1. In the Ready state, a predict trigger with any of the three prices
    [<= 0] calls the model's [predict] not at all, shows the validation
    message, and leaves the application Ready. *)
Theorem predict_rejects_nonpositive (w : World) (data_path model_path : string)
    (required : gset string) (app : GoldPriceApp) (o h l : float) :
  (startup w data_path model_path required).1 = Ready app →
  (o <=? 0)%float = true ∨ (h <=? 0)%float = true ∨ (l <=? 0)%float = true →
  (predict_trigger w app o h l).1 = Ready app ∧
  inferences (predict_trigger w app o h l).2 = [] ∧
  errors_shown (predict_trigger w app o h l).2 = ["All prices must be positive values."].
Proof.
  intros [preview Hp]%Ready_preview Hbad%any_not_positive_true.
  rewrite (predict_trigger_unfold w app o h l preview Hp).
  by rewrite (predict_action_invalid w app o h l Hbad).
Qed.

(** C7. In the Ready state, when the inference call of a predict action
    raises an error (an instance of [Exception]), the application shows
    ["Prediction failed: ..."] with the error's text and is Ready again with
    the same loaded data and model. *)
Theorem inference_error_recovered (w : World) (data_path model_path : string)
    (required : gset string) (app : GoldPriceApp) (o h l : float) (e : exn) :
  (startup w data_path model_path required).1 = Ready app →
  any_not_positive o h l = false →
  result (Predictor_predict (predictor app) (input_frame o h l)) = Raise e →
  isinstance e Exception = true →
  (predict_trigger w app o h l).1 = Ready app ∧
  errors_shown (predict_trigger w app o h l).2 = ["Prediction failed: " +:+ exn_str e] ∧
  StStop ∉ (predict_trigger w app o h l).2.
Proof.
  intros [preview Hp]%Ready_preview Hv He Hcls.
  rewrite (predict_trigger_unfold w app o h l preview Hp).
  rewrite (predict_action_valid w app o h l Hv). cbn. rewrite He, Hcls. cbn.
  repeat split. intros H.
  repeat (apply elem_of_cons in H as [H|H]; [discriminate|]). by apply elem_of_nil in H.
Qed.

(** C9. Whatever set of required columns the application was configured
    with, the frame handed to the model on a valid predict action is the
    single row [[open, high, low]] under the labels ['Open', 'High', 'Low'],
    in that order. *)
Theorem feature_record_fixed (w : World) (data_path model_path : string)
    (required : gset string) (app : GoldPriceApp) (o h l : float) :
  (startup w data_path model_path required).1 = Ready app →
  (0 <? o)%float = true → (0 <? h)%float = true → (0 <? l)%float = true →
  inferences (predict_trigger w app o h l).2
  = [mk_df ["Open"; "High"; "Low"] [[VFloat o; VFloat h; VFloat l]]].
Proof.
  intros [preview Hp]%Ready_preview Ho Hh Hl.
  rewrite (predict_trigger_unfold w app o h l preview Hp). cbn [snd].
  rewrite inferences_run_prefix.
  by rewrite predict_action_valid_inferences by by apply all_positive_valid.
Qed.

(** ** The predict action on concrete inputs *)

Lemma demo_app_Ready :
  (startup demo_world default_data_path default_model_path default_required_columns).1
  = Ready demo_app.
Proof. vm_compute. reflexivity. Qed.

Lemma predict_rejects_nonpositive_witness :
  (predict_trigger demo_world demo_app 0 10 5).1 = Ready demo_app ∧
  inferences (predict_trigger demo_world demo_app 0 10 5).2 = [] ∧
  errors_shown (predict_trigger demo_world demo_app 0 10 5).2
  = ["All prices must be positive values."].
Proof.
  apply (predict_rejects_nonpositive demo_world default_data_path default_model_path
           default_required_columns demo_app 0 10 5).
  - vm_compute. reflexivity.
  - left. reflexivity.
Defined.

Lemma inference_error_recovered_witness :
  (predict_trigger strict_world strict_app 1900 1950 1880).1 = Ready strict_app ∧
  errors_shown (predict_trigger strict_world strict_app 1900 1950 1880).2
  = ["Prediction failed: "
     +:+ "X has 3 features, but SVR is expecting 4 features as input."] ∧
  StStop ∉ (predict_trigger strict_world strict_app 1900 1950 1880).2.
Proof.
  apply (inference_error_recovered strict_world default_data_path default_model_path
           default_required_columns strict_app 1900 1950 1880
           (mk_exn ValueError "X has 3 features, but SVR is expecting 4 features as input.")).
  - vm_compute. reflexivity.
  - reflexivity.
  - reflexivity.
  - reflexivity.
Defined.

Lemma feature_record_fixed_witness :
  inferences (predict_trigger demo_world price_only_app 1900 1950 1880).2
  = [mk_df ["Open"; "High"; "Low"] [[VFloat 1900; VFloat 1950; VFloat 1880]]].
Proof.
  apply (feature_record_fixed demo_world default_data_path default_model_path
           {["Price"]} price_only_app 1900 1950 1880).
  - vm_compute. reflexivity.
  - reflexivity.
  - reflexivity.
  - reflexivity.
Defined.

(** A predict trigger on the demo application: the page, the call of the
    model and the displayed estimate. *)
Example predict_trigger_demo :
  predict_trigger demo_world demo_app 1900 1950 1880
  = (Ready demo_app,
     run_prefix (mk_df ["Open"; "Low"; "High"]
                       [ [VFloat 2043; VFloat 2024; VFloat 2064];
                         [VFloat 2041; VFloat 2036; VFloat 2051];
                         [VFloat 2059; VFloat 2030; VFloat 2065];
                         [VFloat 2063; VFloat 2055; VFloat 2079] ])
     ++ [ModelPredict (input_frame 1900 1950 1880);
         StWrite "The predicted closing price is: 1900.00"]).
Proof. vm_compute. reflexivity. Qed.

(** ** The historical preview *)




(** * Further properties of the loaders and of start-up *)

(** ** Outcomes of the two constructors *)

Lemma DataHandler_init_cases (w : World) (path : string) (required : gset string) :
  DataHandler_init w path required
  = if fs_exists w path then
      match pd_read_csv w path with
      | inl e => (Raise e, [FsExists path; PdReadCsv path])
      | inr d =>
          (if issubset required (columns d)
           then Ret (mk_DataHandler path required d)
           else Raise (mk_exn ValueError
                         ("CSV file must contain these columns: "
                          +:+ str_set w required)),
           [FsExists path; PdReadCsv path])
      end
    else (Raise (mk_exn FileNotFoundError ("File not found: " +:+ str_path w path)),
          [FsExists path]).
Proof.
  unfold DataHandler_init.
  destruct (fs_exists w path) eqn:Hex; [|by rewrite load_data_missing].
  destruct (pd_read_csv w path) as [e|d] eqn:Hrd.
  - by rewrite (load_data_read_fails w _ _ e).
  - rewrite (load_data_read w _ _ d) by done. by destruct (issubset _ _).
Qed.

Lemma Predictor_init_cases (w : World) (path : string) :
  Predictor_init w path
  = if fs_exists w path then
      (match unpickle_file w path with
       | inr m => Ret (mk_Predictor path m)
       | inl e => Raise (if isinstance e PickleError
                         then mk_exn PickleError ("Failed to load model: " +:+ exn_str e)
                         else e)
       end, FsExists path :: unpickle_events w path)
    else (Raise (mk_exn FileNotFoundError ("Model file not found: " +:+ str_path w path)),
          [FsExists path]).
Proof.
  unfold Predictor_init.
  destruct (fs_exists w path) eqn:Hex; [|by rewrite load_model_missing].
  destruct (unpickle_file w path) as [e|m] eqn:Hun.
  - by rewrite (load_model_fails w path e).
  - rewrite (load_model_loaded w path m) by done. cbn. by rewrite app_nil_r.
Qed.

Lemma init_of_construct_Raise (w : World) (data_path model_path : string)
    (required : gset string) (e : exn) (t : list event) :
  GoldPriceApp_construct w data_path model_path required = (Raise e, t) →
  GoldPriceApp_init w data_path model_path required
  = if init_handles e
    then (Raise (mk_exn StopException EmptyString), t ++ [StError (exn_str e); StStop])
    else (Raise e, t).
Proof.
  intros Hc. unfold GoldPriceApp_init, init_handles. rewrite Hc. cbn.
  rewrite orb_false_r, orb_assoc. by destruct (_ || _).
Qed.

Lemma init_of_construct_Ret (w : World) (data_path model_path : string)
    (required : gset string) (app : GoldPriceApp) (t : list event) :
  GoldPriceApp_construct w data_path model_path required = (Ret app, t) →
  GoldPriceApp_init w data_path model_path required = (Ret app, t).
Proof. intros Hc. unfold GoldPriceApp_init. by rewrite Hc. Qed.

Lemma issubset_true (required : gset string) (cols : list string) :
  issubset required cols = true ↔ ∀ c, c ∈ required → c ∈ cols.
Proof.
  unfold issubset. rewrite bool_decide_eq_true. split.
  - intros Hsub c Hc. by apply (elem_of_list_to_set (C := gset string)), Hsub.
  - intros H c Hc. by apply elem_of_list_to_set, H.
Qed.

Lemma DataHandler_init_loaded (w : World) (path : string) (required : gset string)
    (d : DataFrame) :
  fs_exists w path = true →
  pd_read_csv w path = inr d →
  issubset required (columns d) = true →
  DataHandler_init w path required
  = (Ret (mk_DataHandler path required d), [FsExists path; PdReadCsv path]).
Proof. intros Hex Hrd Hsub. by rewrite DataHandler_init_cases, Hex, Hrd, Hsub. Qed.

(** X1. A dataset file that exists, can be read and carries every required
    column gives a [DataHandler] that holds the path, the required set and
    the frame exactly as read (all its columns, required or not), after one
    existence test and one read. *)
Theorem DataHandler_init_success (w : World) (path : string) (required : gset string)
    (d : DataFrame) :
  fs_exists w path = true →
  pd_read_csv w path = inr d →
  (∀ c, c ∈ required → c ∈ columns d) →
  DataHandler_init w path required
  = (Ret (mk_DataHandler path required d), [FsExists path; PdReadCsv path]).
Proof.
  intros Hex Hrd Hall. rewrite DataHandler_init_cases, Hex, Hrd.
  by rewrite (proj2 (issubset_true required (columns d)) Hall).
Qed.

Lemma DataHandler_init_success_witness :
  DataHandler_init demo_world "Gold_Price.csv" default_required_columns
  = (Ret (mk_DataHandler "Gold_Price.csv" default_required_columns demo_frame),
     [FsExists "Gold_Price.csv"; PdReadCsv "Gold_Price.csv"]).
Proof.
  apply (DataHandler_init_success demo_world "Gold_Price.csv" default_required_columns
           demo_frame).
  - reflexivity.
  - reflexivity.
  - apply issubset_true. vm_compute. reflexivity.
Defined.

(** X2. Whatever makes the construction of the [DataHandler] fail, the
    application's constructor does nothing about the model: the events are
    the existence test of the dataset and at most its read. The error is
    displayed and the application halts when it is a [FileNotFoundError], a
    [ValueError] (pandas' parser errors are) or a [PickleError]; otherwise
    it leaves the constructor. *)
Theorem startup_dataset_failure (w : World) (data_path model_path : string)
    (required : gset string) (e : exn) (t : list event) :
  DataHandler_init w data_path required = (Raise e, t) →
  GoldPriceApp_init w data_path model_path required
  = (if init_handles e
     then (Raise (mk_exn StopException EmptyString), t ++ [StError (exn_str e); StStop])
     else (Raise e, t)) ∧
  (t = [FsExists data_path] ∨ t = [FsExists data_path; PdReadCsv data_path]).
Proof.
  intros Hd. split.
  - apply init_of_construct_Raise. by rewrite construct_unfold, Hd.
  - rewrite DataHandler_init_cases in Hd.
    destruct (fs_exists w data_path); [|injection Hd as _ <-; by left].
    destruct (pd_read_csv w data_path) as [e'|d]; injection Hd as _ <-; by right.
Qed.

Lemma startup_dataset_failure_witness :
  GoldPriceApp_init garbled_world default_data_path default_model_path
    default_required_columns
  = (Raise (mk_exn StopException EmptyString),
     [FsExists "Gold_Price.csv"; PdReadCsv "Gold_Price.csv"]
     ++ [StError "Error tokenizing data. C error: Expected 5 fields"; StStop]).
Proof.
  refine (proj1 (startup_dataset_failure garbled_world default_data_path
                   default_model_path default_required_columns
                   (mk_exn ParserError "Error tokenizing data. C error: Expected 5 fields")
                   [FsExists "Gold_Price.csv"; PdReadCsv "Gold_Price.csv"] _)).
  vm_compute. reflexivity.
Defined.

(** ** What the page shows for each start-up failure *)

Lemma startup_of_init_stop (w : World) (data_path model_path : string)
    (required : gset string) (t : list event) :
  GoldPriceApp_init w data_path model_path required
  = (Raise (mk_exn StopException EmptyString), t) →
  startup w data_path model_path required = (Halted, t).
Proof. intros H. unfold startup. by rewrite H. Qed.

Lemma startup_of_init_Ret (w : World) (data_path model_path : string)
    (required : gset string) (app : GoldPriceApp) (t : list event) :
  GoldPriceApp_init w data_path model_path required = (Ret app, t) →
  startup w data_path model_path required = (Ready app, t).
Proof. intros H. unfold startup. by rewrite H. Qed.

(** X3. When the dataset path does not exist, start-up tests the path,
    shows ["File not found: <path>"] and halts; nothing else happens. *)
Theorem startup_missing_dataset (w : World) (data_path model_path : string)
    (required : gset string) :
  fs_exists w data_path = false →
  startup w data_path model_path required
  = (Halted,
     [FsExists data_path;
      StError ("File not found: " +:+ str_path w data_path);
      StStop]).
Proof.
  intros Hex. apply startup_of_init_stop.
  rewrite (init_of_construct_Raise w _ _ _
             (mk_exn FileNotFoundError ("File not found: " +:+ str_path w data_path))
             [FsExists data_path]); [done|].
  by rewrite construct_unfold, DataHandler_init_cases, Hex.
Qed.

Lemma startup_missing_dataset_witness :
  startup demo_world "Gold.csv" default_model_path default_required_columns
  = (Halted, [FsExists "Gold.csv"; StError "File not found: Gold.csv"; StStop]).
Proof.
  apply (startup_missing_dataset demo_world "Gold.csv" default_model_path
           default_required_columns).
  reflexivity.
Defined.

(** X4. When the dataset was read but lacks a required column, start-up
    shows ["CSV file must contain these columns: ..."] and halts without
    touching the model file. *)
Theorem startup_missing_column (w : World) (data_path model_path : string)
    (required : gset string) (d : DataFrame) (c : string) :
  fs_exists w data_path = true →
  pd_read_csv w data_path = inr d →
  c ∈ required → c ∉ columns d →
  startup w data_path model_path required
  = (Halted,
     [FsExists data_path; PdReadCsv data_path;
      StError ("CSV file must contain these columns: " +:+ str_set w required);
      StStop]).
Proof.
  intros Hex Hrd Hc Hmiss. apply startup_of_init_stop.
  rewrite (init_of_construct_Raise w _ _ _
             (mk_exn ValueError
                ("CSV file must contain these columns: " +:+ str_set w required))
             [FsExists data_path; PdReadCsv data_path]); [done|].
  rewrite construct_unfold, DataHandler_init_cases, Hex, Hrd.
  destruct (issubset required (columns d)) eqn:Hsub; [|done].
  destruct Hmiss. by apply (proj1 (issubset_true required (columns d)) Hsub).
Qed.

Lemma startup_missing_column_witness :
  startup demo_world default_data_path default_model_path {["Open"; "Volume"]}
  = (Halted,
     [FsExists default_data_path; PdReadCsv default_data_path;
      StError ("CSV file must contain these columns: "
               +:+ str_set demo_world {["Open"; "Volume"]});
      StStop]).
Proof.
  apply (startup_missing_column demo_world default_data_path default_model_path
           {["Open"; "Volume"]} demo_frame "Volume").
  - reflexivity.
  - reflexivity.
  - vm_compute. reflexivity.
  - apply (bool_decide_unpack _). vm_compute. reflexivity.
Defined.

(** X5. The model path is tested only once the dataset is loaded; when it
    does not exist, start-up shows ["Model file not found: <path>"] and
    halts, without opening anything. *)
Theorem startup_missing_model (w : World) (data_path model_path : string)
    (required : gset string) (d : DataFrame) :
  fs_exists w data_path = true →
  pd_read_csv w data_path = inr d →
  (∀ c, c ∈ required → c ∈ columns d) →
  fs_exists w model_path = false →
  startup w data_path model_path required
  = (Halted,
     [FsExists data_path; PdReadCsv data_path; FsExists model_path;
      StError ("Model file not found: " +:+ str_path w model_path);
      StStop]).
Proof.
  intros Hex Hrd Hall Hmod. apply startup_of_init_stop.
  rewrite (init_of_construct_Raise w _ _ _
             (mk_exn FileNotFoundError ("Model file not found: " +:+ str_path w model_path))
             [FsExists data_path; PdReadCsv data_path; FsExists model_path]); [done|].
  rewrite construct_unfold, (DataHandler_init_loaded w _ _ d Hex Hrd (proj2 (issubset_true _ _) Hall)).
  by rewrite Predictor_init_cases, Hmod.
Qed.

Lemma startup_missing_model_witness :
  startup demo_world default_data_path "model.pkl" default_required_columns
  = (Halted,
     [FsExists default_data_path; PdReadCsv default_data_path; FsExists "model.pkl";
      StError "Model file not found: model.pkl"; StStop]).
Proof.
  apply (startup_missing_model demo_world default_data_path "model.pkl"
           default_required_columns demo_frame).
  - reflexivity.
  - reflexivity.
  - apply issubset_true. vm_compute. reflexivity.
  - reflexivity.
Defined.

(** X6. With the dataset loaded and the model file present, an error [e]
    raised by opening or unpickling the model ends start-up in one of three
    ways: a [PickleError] halts with ["Failed to load model: " + str(e)]; a
    [ValueError] or [FileNotFoundError] (which [_load_model] does not wrap)
    halts with [str(e)] alone; any other error leaves the constructor. *)
Theorem startup_unpickle_failure (w : World) (data_path model_path : string)
    (required : gset string) (d : DataFrame) (e : exn) :
  fs_exists w data_path = true →
  pd_read_csv w data_path = inr d →
  (∀ c, c ∈ required → c ∈ columns d) →
  fs_exists w model_path = true →
  unpickle_file w model_path = inl e →
  let loaded := [FsExists data_path; PdReadCsv data_path; FsExists model_path]
                ++ unpickle_events w model_path in
  (isinstance e PickleError = true →
   startup w data_path model_path required
   = (Halted, loaded ++ [StError ("Failed to load model: " +:+ exn_str e); StStop])) ∧
  (isinstance e PickleError = false →
   isinstance e ValueError || isinstance e FileNotFoundError = true →
   startup w data_path model_path required
   = (Halted, loaded ++ [StError (exn_str e); StStop])) ∧
  (isinstance e PickleError = false →
   isinstance e ValueError || isinstance e FileNotFoundError = false →
   GoldPriceApp_init w data_path model_path required = (Raise e, loaded)).
Proof.
  intros Hex Hrd Hall Hmod Hun loaded.
  assert (GoldPriceApp_construct w data_path model_path required
          = (Raise (if isinstance e PickleError
                    then mk_exn PickleError ("Failed to load model: " +:+ exn_str e)
                    else e), loaded)) as Hc.
  { rewrite construct_unfold, (DataHandler_init_loaded w _ _ d Hex Hrd (proj2 (issubset_true _ _) Hall)).
    by rewrite Predictor_init_cases, Hmod, Hun. }
  repeat split.
  - intros Hp. apply startup_of_init_stop. rewrite Hp in Hc.
    by rewrite (init_of_construct_Raise w _ _ _ _ _ Hc).
  - intros Hp Hv. apply startup_of_init_stop. rewrite Hp in Hc.
    rewrite (init_of_construct_Raise w _ _ _ _ _ Hc). unfold init_handles.
    rewrite Hp, orb_false_r, (orb_comm (isinstance e FileNotFoundError)), Hv. done.
  - intros Hp Hv. rewrite Hp in Hc.
    rewrite (init_of_construct_Raise w _ _ _ _ _ Hc). unfold init_handles.
    by rewrite Hp, orb_false_r, (orb_comm (isinstance e FileNotFoundError)), Hv.
Qed.

Lemma startup_unpickle_failure_witness :
  startup malformed_world default_data_path default_model_path default_required_columns
  = (Halted,
     ([FsExists default_data_path; PdReadCsv default_data_path;
       FsExists default_model_path]
      ++ unpickle_events malformed_world default_model_path)
     ++ [StError ("Failed to load model: " +:+ "invalid load key, 'x'."); StStop]) ∧
  GoldPriceApp_init locked_world default_data_path default_model_path
    default_required_columns
  = (Raise (mk_exn PermissionError "[Errno 13] Permission denied: 'svm_model.pkl'"),
     [FsExists default_data_path; PdReadCsv default_data_path;
      FsExists default_model_path]
     ++ unpickle_events locked_world default_model_path).
Proof.
  split.
  - refine (proj1 (startup_unpickle_failure malformed_world default_data_path
                     default_model_path default_required_columns demo_frame
                     (mk_exn UnpicklingError "invalid load key, 'x'.") _ _ _ _ _) _);
      try reflexivity.
    apply issubset_true. vm_compute. reflexivity.
  - refine (proj2 (proj2 (startup_unpickle_failure locked_world default_data_path
                     default_model_path default_required_columns demo_frame
                     (mk_exn PermissionError "[Errno 13] Permission denied: 'svm_model.pkl'")
                     _ _ _ _ _)) _ _);
      try reflexivity.
    apply issubset_true. vm_compute. reflexivity.
Defined.

(** X7. When the dataset loads with every required column and the model
    file unpickles, start-up reaches Ready with the frame as read, the model
    as unpickled and the required set as configured; it tested and read the
    dataset first, then tested, opened, unpickled and closed the model file,
    and displayed nothing. *)
Theorem startup_success (w : World) (data_path model_path : string)
    (required : gset string) (d : DataFrame) (m : Model) :
  fs_exists w data_path = true →
  pd_read_csv w data_path = inr d →
  (∀ c, c ∈ required → c ∈ columns d) →
  fs_exists w model_path = true →
  unpickle_file w model_path = inr m →
  startup w data_path model_path required
  = (Ready (mk_GoldPriceApp (mk_DataHandler data_path required d)
                            (mk_Predictor model_path m) required),
     [FsExists data_path; PdReadCsv data_path;
      FsExists model_path; FsOpen model_path; PickleLoad model_path; FsClose model_path]).
Proof.
  intros Hex Hrd Hall Hmod Hun. apply startup_of_init_Ret, init_of_construct_Ret.
  rewrite construct_unfold, (DataHandler_init_loaded w _ _ d Hex Hrd (proj2 (issubset_true _ _) Hall)).
  rewrite Predictor_init_cases, Hmod, Hun.
  unfold unpickle_events, unpickle_file in *.
  by destruct (fs_open_rb w model_path).
Qed.

Lemma startup_success_witness :
  startup demo_world default_data_path default_model_path default_required_columns
  = (Ready (mk_GoldPriceApp
              (mk_DataHandler default_data_path default_required_columns demo_frame)
              (mk_Predictor default_model_path demo_model) default_required_columns),
     [FsExists default_data_path; PdReadCsv default_data_path;
      FsExists default_model_path; FsOpen default_model_path;
      PickleLoad default_model_path; FsClose default_model_path]).
Proof.
  apply (startup_success demo_world default_data_path default_model_path
           default_required_columns demo_frame demo_model).
  - reflexivity.
  - reflexivity.
  - apply issubset_true. vm_compute. reflexivity.
  - reflexivity.
  - reflexivity.
Defined.

(** X8. [_load_model] closes the model file whenever it could open it, also
    when unpickling raises: with the file opened the events are test, open,
    load, close, whatever [pickle.load] does. When [open] itself raises,
    nothing is loaded and nothing is closed. *)
Theorem model_file_closed (w : World) (path : string) :
  fs_exists w path = true →
  (∀ file, fs_open_rb w path = inr file →
           trace (Predictor_init w path)
           = [FsExists path; FsOpen path; PickleLoad path; FsClose path]) ∧
  (∀ e, fs_open_rb w path = inl e →
        trace (Predictor_init w path) = [FsExists path; FsOpen path]).
Proof.
  intros Hex. rewrite Predictor_init_cases, Hex. unfold unpickle_events. cbn.
  split; [intros file ->|intros e ->]; done.
Qed.

Lemma model_file_closed_witness :
  trace (Predictor_init truncated_world "svm_model.pkl")
  = [FsExists "svm_model.pkl"; FsOpen "svm_model.pkl"; PickleLoad "svm_model.pkl";
     FsClose "svm_model.pkl"] ∧
  trace (Predictor_init locked_world "svm_model.pkl")
  = [FsExists "svm_model.pkl"; FsOpen "svm_model.pkl"].
Proof.
  split.
  - refine (proj1 (model_file_closed truncated_world "svm_model.pkl" _) [] _);
      reflexivity.
  - refine (proj2 (model_file_closed locked_world "svm_model.pkl" _)
              (mk_exn PermissionError "[Errno 13] Permission denied: 'svm_model.pkl'") _);
      reflexivity.
Defined.

(** * Further properties of [get_head] *)

Lemma slice_to_fmap {A B} (f : A → B) (n : Z) (l : list A) :
  slice_to n (f <$> l) = f <$> slice_to n l.
Proof. unfold slice_to. rewrite length_fmap. by destruct (0 <=? n)%Z; rewrite fmap_take. Qed.

Lemma slice_to_take {A} (n : Z) (l : list A) : ∃ k, slice_to n l = take k l.
Proof. unfold slice_to. destruct (0 <=? n)%Z; eauto. Qed.

Lemma length_cells_at (c : string) (cols : list string) (r : list value) :
  length r = length cols →
  length (cells_at c cols r) = length (filter (λ c', c' = c) cols).
Proof.
  unfold cells_at. revert r. induction cols as [|x cols IH]; intros [|v r] Hlen;
    try done. cbn in Hlen. injection Hlen as Hlen. cbn [zip zip_with].
  rewrite !filter_cons. cbn. destruct (decide (x = c)); cbn; rewrite IH; done.
Qed.

Lemma length_select_row (labels cols : list string) (r : list value) :
  length r = length cols →
  length (select_row labels cols r)
  = length (labels ≫= (λ c, filter (λ c', c' = c) cols)).
Proof.
  intros Hlen. unfold select_row. induction labels as [|c labels IH]; [done|].
  by rewrite !bind_cons, !length_app, IH, length_cells_at.
Qed.

Lemma cells_at_absent (c : string) (cols : list string) (r : list value) :
  c ∉ cols → cells_at c cols r = [].
Proof.
  unfold cells_at. revert r. induction cols as [|x cols IH]; intros [|v r] Hc; try done.
  apply not_elem_of_cons in Hc as [Hne Hc]. cbn [zip zip_with].
  rewrite filter_cons_False by (cbn; congruence). by apply IH.
Qed.

Lemma cells_at_NoDup (c : string) (cols : list string) (r : list value) (k : nat) (v : value) :
  NoDup cols → cols !! k = Some c → r !! k = Some v → cells_at c cols r = [v].
Proof.
  intros Hnd. revert r k. induction Hnd as [|x cols Hx Hnd IH]; intros r k Hc Hv; [done|].
  destruct r as [|y r]; [done|]. destruct k as [|k]; cbn in Hc, Hv.
  - injection Hc as ->. injection Hv as ->.
    pose proof (cells_at_absent c cols r Hx) as Hnil. unfold cells_at in *.
    cbn [zip zip_with]. rewrite filter_cons_True by done. cbn. by rewrite Hnil.
  - assert (x ≠ c) as Hne.
    { intros ->. apply Hx. by eapply list_elem_of_lookup_2. }
    specialize (IH r k Hc Hv). unfold cells_at in *. cbn [zip zip_with].
    by rewrite filter_cons_False by (cbn; congruence).
Qed.

(** Under distinct column labels, a selected row lists, label by label, the
    cell that stood under that label. *)
Lemma select_row_by_label (labels cols : list string) (r : list value) :
  NoDup cols → length r = length cols → labels ⊆ cols →
  Forall2 (λ c v, ∃ k, cols !! k = Some c ∧ r !! k = Some v)
          labels (select_row labels cols r).
Proof.
  intros Hnd Hlen. unfold select_row.
  induction labels as [|c labels IH]; intros Hsub; [constructor|].
  assert (c ∈ cols) as [k Hk]%list_elem_of_lookup_1 by set_solver.
  assert (is_Some (r !! k)) as [v Hv].
  { apply lookup_lt_is_Some. rewrite Hlen. by eapply lookup_lt_Some. }
  rewrite bind_cons, (cells_at_NoDup c cols r k v) by done. cbn.
  constructor; [by exists k|]. apply IH. set_solver.
Qed.

Lemma constructed_subset (w : World) (path : string) (required : gset string)
    (dh : DataHandler) :
  result (DataHandler_init w path required) = Ret dh →
  required_columns dh = required ∧
  required ⊆ list_to_set (columns (df dh)) ∧
  list_set w required ⊆ columns (df dh).
Proof.
  intros Hinit.
  destruct (DataHandler_init w path required) as [o t] eqn:Hi. cbn in Hinit. subst o.
  apply DataHandler_init_Ret in Hi as (Hdh & _ & _ & Hsub & _).
  split; [by rewrite Hdh|]. split; [done|].
  intros c Hc%list_set_elem_of. by apply (elem_of_list_to_set (C := gset string)), Hsub.
Qed.



(** X10. [get_head] keeps the frame rectangular: when every row of the
    dataset has one cell per column, every returned row has one cell per
    returned column, for every [n]. *)
Theorem get_head_well_formed (w : World) (path : string) (required : gset string)
    (dh : DataHandler) (n : Z) :
  result (DataHandler_init w path required) = Ret dh →
  well_formed (df dh) →
  ∃ out : DataFrame, get_head w dh n = (Ret out, []) ∧ well_formed out.
Proof.
  intros (Hreq & Hsub & _)%constructed_subset Hwf.
  eexists. split; [apply get_head_present; by rewrite Hreq|].
  unfold well_formed in *. cbn.
  destruct (slice_to_take n (select_row (list_set w (required_columns dh))
                                        (columns (df dh)) <$> rows (df dh))) as [k ->].
  apply Forall_take, Forall_fmap. eapply Forall_impl; [exact Hwf|].
  intros r Hr. cbn. by apply length_select_row.
Qed.

Lemma get_head_well_formed_witness :
  ∃ out : DataFrame, get_head demo_world demo_handler 4 = (Ret out, []) ∧ well_formed out.
Proof.
  apply (get_head_well_formed demo_world "Gold_Price.csv" default_required_columns
           demo_handler 4).
  - vm_compute. reflexivity.
  - unfold well_formed. cbn. repeat constructor.
Defined.

(** X11. When the dataset's column labels are distinct and its rows have one
    cell per column, every row returned by [get_head] is the same-numbered
    row of the dataset, and under each returned label stands the cell that
    the dataset has under that label. *)
Theorem get_head_cells_by_label (w : World) (path : string) (required : gset string)
    (dh : DataHandler) (n : Z) :
  result (DataHandler_init w path required) = Ret dh →
  NoDup (columns (df dh)) →
  well_formed (df dh) →
  ∃ out : DataFrame,
    get_head w dh n = (Ret out, []) ∧
    columns out = list_set w required ∧
    ∀ i r, rows out !! i = Some r →
           ∃ r0, rows (df dh) !! i = Some r0 ∧
                 Forall2 (λ c v, ∃ k, columns (df dh) !! k = Some c ∧ r0 !! k = Some v)
                         (columns out) r.
Proof.
  intros (Hreq & Hsub & Hlab)%constructed_subset Hnd Hwf.
  eexists. split; [apply get_head_present; by rewrite Hreq|]. cbn. rewrite Hreq.
  rewrite bind_filter_eq_NoDup by done. split; [done|].
  intros i r. rewrite slice_to_fmap, list_lookup_fmap.
  destruct (slice_to_take n (rows (df dh))) as [k ->].
  intros (r0 & [Hr0 _]%lookup_take_Some & ->)%fmap_Some.
  exists r0. split; [done|]. apply select_row_by_label; [done| |done].
  unfold well_formed in Hwf. rewrite Forall_forall in Hwf.
  apply Hwf. by eapply list_elem_of_lookup_2.
Qed.

Lemma get_head_cells_by_label_witness :
  ∃ out : DataFrame,
    get_head demo_world demo_handler 4 = (Ret out, []) ∧
    columns out = list_set demo_world default_required_columns ∧
    ∀ i r, rows out !! i = Some r →
           ∃ r0, rows (df demo_handler) !! i = Some r0 ∧
                 Forall2 (λ c v, ∃ k, columns (df demo_handler) !! k = Some c
                                      ∧ r0 !! k = Some v)
                         (columns out) r.
Proof.
  apply (get_head_cells_by_label demo_world "Gold_Price.csv" default_required_columns
           demo_handler 4).
  - vm_compute. reflexivity.
  - apply (bool_decide_unpack _). vm_compute. reflexivity.
  - unfold well_formed. cbn. repeat constructor.
Defined.



(** In the reversed environment the preview has the columns the other way
    round. *)
Example get_head_reversed_demo :
  get_head reversed_world demo_handler 2
  = (Ret (mk_df ["High"; "Low"; "Open"]
                [ [VFloat 2064; VFloat 2024; VFloat 2043];
                  [VFloat 2051; VFloat 2036; VFloat 2041] ]), []).
Proof. vm_compute. reflexivity. Qed.

(** * Further properties of the script run *)

Lemma results_shown_run_prefix (preview : DataFrame) (t : list event) :
  results_shown (run_prefix preview ++ t) = results_shown t.
Proof. done. Qed.

Lemma messages_shown_run_prefix (preview : DataFrame) (t : list event) :
  messages_shown (run_prefix preview ++ t) = messages_shown t.
Proof. done. Qed.

(** X13. When the model's [predict] returns an empty array, taking its first
    item raises [IndexError] inside the [try]: the page shows
    ["Prediction failed: ..."] with that error's text, no result, and the
    application is Ready again. *)
Theorem empty_prediction_reported (w : World) (data_path model_path : string)
    (required : gset string) (app : GoldPriceApp) (o h l : float) :
  (startup w data_path model_path required).1 = Ready app →
  any_not_positive o h l = false →
  model_predict (model (predictor app)) (input_frame o h l) = inr [] →
  ∃ e : exn,
    result (Predictor_predict (predictor app) (input_frame o h l)) = Raise e ∧
    exn_cls e = IndexError ∧
    (predict_trigger w app o h l).1 = Ready app ∧
    errors_shown (predict_trigger w app o h l).2 = ["Prediction failed: " +:+ exn_str e] ∧
    results_shown (predict_trigger w app o h l).2 = [].
Proof.
  intros [preview Hp]%Ready_preview Hv Hm.
  rewrite (predict_trigger_unfold w app o h l preview Hp).
  rewrite (predict_action_valid w app o h l Hv). cbv zeta.
  rewrite Predictor_predict_unfold, Hm. cbn.
  eexists. split; [done|]. done.
Qed.

Lemma empty_prediction_reported_witness :
  ∃ e : exn,
    result (Predictor_predict (predictor silent_app) (input_frame 1900 1950 1880))
    = Raise e ∧
    exn_cls e = IndexError ∧
    (predict_trigger silent_world silent_app 1900 1950 1880).1 = Ready silent_app ∧
    errors_shown (predict_trigger silent_world silent_app 1900 1950 1880).2
    = ["Prediction failed: " +:+ exn_str e] ∧
    results_shown (predict_trigger silent_world silent_app 1900 1950 1880).2 = [].
Proof.
  apply (empty_prediction_reported silent_world default_data_path default_model_path
           default_required_columns silent_app 1900 1950 1880).
  - vm_compute. reflexivity.
  - reflexivity.
  - reflexivity.
Defined.

(** X14. The [try] of the predict action also covers the formatting of the
    result: when the model returns a value that [:.2f] cannot format (the
    formatting raises an [Exception]), the model was called once, the page
    shows ["Prediction failed: ..."] with that error's text, no result, and
    the application is Ready again. *)
Theorem format_error_reported (w : World) (data_path model_path : string)
    (required : gset string) (app : GoldPriceApp) (o h l : float)
    (v : value) (rest : list value) (e : exn) :
  (startup w data_path model_path required).1 = Ready app →
  any_not_positive o h l = false →
  model_predict (model (predictor app)) (input_frame o h l) = inr (v :: rest) →
  format_2f w v = inl e →
  isinstance e Exception = true →
  (predict_trigger w app o h l).1 = Ready app ∧
  inferences (predict_trigger w app o h l).2 = [input_frame o h l] ∧
  errors_shown (predict_trigger w app o h l).2 = ["Prediction failed: " +:+ exn_str e] ∧
  results_shown (predict_trigger w app o h l).2 = [].
Proof.
  intros [preview Hp]%Ready_preview Hv Hm Hf Hcls.
  rewrite (predict_trigger_unfold w app o h l preview Hp).
  rewrite (predict_action_valid w app o h l Hv). cbv zeta.
  rewrite Predictor_predict_unfold, Hm. cbn. by rewrite Hf, Hcls.
Qed.

Lemma format_error_reported_witness :
  (predict_trigger label_world label_app 1900 1950 1880).1 = Ready label_app ∧
  inferences (predict_trigger label_world label_app 1900 1950 1880).2
  = [input_frame 1900 1950 1880] ∧
  errors_shown (predict_trigger label_world label_app 1900 1950 1880).2
  = ["Prediction failed: " +:+ "Unknown format code 'f' for object of type 'str'"] ∧
  results_shown (predict_trigger label_world label_app 1900 1950 1880).2 = [].
Proof.
  apply (format_error_reported label_world default_data_path default_model_path
           default_required_columns label_app 1900 1950 1880 (VStr "up") []
           (mk_exn ValueError "Unknown format code 'f' for object of type 'str'")).
  - vm_compute. reflexivity.
  - reflexivity.
  - reflexivity.
  - reflexivity.
  - reflexivity.
Defined.

(** X15. A predict trigger in the Ready state ends in one of two ways.
    Either [run] returns, the application is Ready again and the output area
    received exactly one text (the result or one error). Or the inference or
    the formatting raised something that is not an [Exception] (such as
    [KeyboardInterrupt]): it leaves [run], after one call of the model and
    with no text shown. *)
Theorem predict_trigger_outcome (w : World) (data_path model_path : string)
    (required : gset string) (app : GoldPriceApp) (o h l : float) :
  (startup w data_path model_path required).1 = Ready app →
  ((predict_trigger w app o h l).1 = Ready app ∧
   length (messages_shown (predict_trigger w app o h l).2) = 1) ∨
  (∃ e : exn,
     result (GoldPriceApp_run w app (mk_Inputs o h l true)) = Raise e ∧
     isinstance e Exception = false ∧
     inferences (predict_trigger w app o h l).2 = [input_frame o h l] ∧
     messages_shown (predict_trigger w app o h l).2 = []).
Proof.
  intros [preview Hp]%Ready_preview.
  unfold predict_trigger. rewrite (run_unfold w app _ preview Hp). cbn [in_predict
    in_open in_high in_low fst snd result trace].
  rewrite messages_shown_run_prefix, inferences_run_prefix.
  destruct (any_not_positive o h l) eqn:Hv.
  { rewrite (predict_action_invalid w app o h l Hv). by left. }
  rewrite (predict_action_valid w app o h l Hv). cbv zeta.
  destruct (result (Predictor_predict _ _)) as [v|e].
  - destruct (format_2f w v) as [e|s]; [|by left].
    destruct (isinstance e Exception) eqn:He; [by left|]. right. by exists e.
  - destruct (isinstance e Exception) eqn:He; [by left|]. right. by exists e.
Qed.

Lemma predict_trigger_outcome_witness :
  ((predict_trigger demo_world demo_app 1900 1950 1880).1 = Ready demo_app ∧
   length (messages_shown (predict_trigger demo_world demo_app 1900 1950 1880).2) = 1) ∨
  (∃ e : exn,
     result (GoldPriceApp_run demo_world demo_app (mk_Inputs 1900 1950 1880 true))
     = Raise e ∧
     isinstance e Exception = false ∧
     inferences (predict_trigger demo_world demo_app 1900 1950 1880).2
     = [input_frame 1900 1950 1880] ∧
     messages_shown (predict_trigger demo_world demo_app 1900 1950 1880).2 = []).
Proof.
  apply (predict_trigger_outcome demo_world default_data_path default_model_path
           default_required_columns demo_app 1900 1950 1880).
  vm_compute. reflexivity.
Defined.

(** X16. A run of the script without a click on [Predict] shows the title,
    the preview and the widgets and returns: whatever the three prices are,
    the model is not called and the output area stays empty. *)
Theorem run_without_trigger (w : World) (data_path model_path : string)
    (required : gset string) (app : GoldPriceApp) (o h l : float) :
  (startup w data_path model_path required).1 = Ready app →
  ∃ preview : DataFrame,
    get_head w (data_handler app) 4 = (Ret preview, []) ∧
    GoldPriceApp_run w app (mk_Inputs o h l false) = (Ret tt, run_prefix preview) ∧
    inferences (trace (GoldPriceApp_run w app (mk_Inputs o h l false))) = [] ∧
    messages_shown (trace (GoldPriceApp_run w app (mk_Inputs o h l false))) = [].
Proof.
  intros [preview Hp]%Ready_preview. exists preview. split; [done|].
  by rewrite (run_unfold w app _ preview Hp).
Qed.

Lemma run_without_trigger_witness :
  ∃ preview : DataFrame,
    get_head demo_world (data_handler demo_app) 4 = (Ret preview, []) ∧
    GoldPriceApp_run demo_world demo_app (mk_Inputs 0 10 5 false)
    = (Ret tt, run_prefix preview) ∧
    inferences (trace (GoldPriceApp_run demo_world demo_app (mk_Inputs 0 10 5 false))) = [] ∧
    messages_shown (trace (GoldPriceApp_run demo_world demo_app (mk_Inputs 0 10 5 false)))
    = [].
Proof.
  apply (run_without_trigger demo_world default_data_path default_model_path
           default_required_columns demo_app 0 10 5).
  vm_compute. reflexivity.
Defined.

(** X17. Once the application is Ready, a run of the script touches no
    file: whatever the inputs, its events contain no existence test, no
    [read_csv], no [open], no [pickle.load]. The dataset and the model are
    the ones loaded at start-up. *)
Theorem run_touches_no_file (w : World) (data_path model_path : string)
    (required : gset string) (app : GoldPriceApp) (i : Inputs) :
  (startup w data_path model_path required).1 = Ready app →
  forallb (λ ev, negb (is_io ev)) (trace (GoldPriceApp_run w app i)) = true ∧
  file_reads (trace (GoldPriceApp_run w app i)) = [].
Proof.
  intros [preview Hp]%Ready_preview.
  rewrite (run_unfold w app i preview Hp).
  destruct (in_predict i); [|done]. cbn [trace snd].
  destruct (any_not_positive (in_open i) (in_high i) (in_low i)) eqn:Hv.
  { by rewrite (predict_action_invalid w app _ _ _ Hv). }
  rewrite (predict_action_valid w app _ _ _ Hv). cbv zeta.
  destruct (result (Predictor_predict _ _)) as [v|e];
    [destruct (format_2f w v) as [e|s]|]; try destruct (isinstance e Exception); done.
Qed.

Lemma run_touches_no_file_witness :
  forallb (λ ev, negb (is_io ev))
          (trace (GoldPriceApp_run demo_world demo_app (mk_Inputs 1900 1950 1880 true)))
  = true ∧
  file_reads (trace (GoldPriceApp_run demo_world demo_app (mk_Inputs 1900 1950 1880 true)))
  = [].
Proof.
  apply (run_touches_no_file demo_world default_data_path default_model_path
           default_required_columns demo_app (mk_Inputs 1900 1950 1880 true)).
  vm_compute. reflexivity.
Defined.

(** X18. In a run of the script the model is called exactly when [Predict]
    was clicked and none of the three prices is [<= 0], and then once, with
    the frame of the three entered prices; in every other run it is not
    called. *)
Theorem inference_exactly_when_valid (w : World) (data_path model_path : string)
    (required : gset string) (app : GoldPriceApp) (i : Inputs) :
  (startup w data_path model_path required).1 = Ready app →
  inferences (trace (GoldPriceApp_run w app i))
  = if in_predict i && negb (any_not_positive (in_open i) (in_high i) (in_low i))
    then [input_frame (in_open i) (in_high i) (in_low i)]
    else [].
Proof.
  intros [preview Hp]%Ready_preview.
  rewrite (run_unfold w app i preview Hp).
  destruct (in_predict i); [|done]. cbn [trace snd andb].
  rewrite inferences_run_prefix.
  destruct (any_not_positive (in_open i) (in_high i) (in_low i)) eqn:Hv.
  - by rewrite (predict_action_invalid w app _ _ _ Hv).
  - by rewrite (predict_action_valid_inferences w app _ _ _ Hv).
Qed.

Lemma inference_exactly_when_valid_witness :
  inferences (trace (GoldPriceApp_run demo_world demo_app (mk_Inputs 1900 1950 0 true)))
  = if in_predict (mk_Inputs 1900 1950 0 true)
       && negb (any_not_positive (in_open (mk_Inputs 1900 1950 0 true))
                                 (in_high (mk_Inputs 1900 1950 0 true))
                                 (in_low (mk_Inputs 1900 1950 0 true)))
    then [input_frame (in_open (mk_Inputs 1900 1950 0 true))
                      (in_high (mk_Inputs 1900 1950 0 true))
                      (in_low (mk_Inputs 1900 1950 0 true))]
    else [].
Proof.
  apply (inference_exactly_when_valid demo_world default_data_path default_model_path
           default_required_columns demo_app (mk_Inputs 1900 1950 0 true)).
  vm_compute. reflexivity.
Defined.

(** * Repeated predict actions on one application object *)

Lemma run_page_unfold (w : World) (dh : DataHandler) (i : Inputs) (preview : DataFrame) :
  get_head w dh 4 = (Ret preview, []) →
  run_page w dh i
  = (Ret (in_open i, in_high i, in_low i, in_predict i), run_prefix preview).
Proof. intros Hhead. unfold run_page. by rewrite Hhead. Qed.

(** The predict action on the object shows what [predict_action] shows with
    the model in its present state, and leaves the object as the call of the
    model left it, or untouched when validation rejects the prices. *)
Lemma predict_action_on_agrees {S} (w : World) (self : StatefulApp S) (o h l : float) :
  predict_action_on w o h l self
  = (predict_action w (present_app self) o h l,
     if any_not_positive o h l then self else after_call self (input_frame o h l)).
Proof.
  unfold predict_action_on, predict_action.
  destruct (any_not_positive o h l); [done|].
  unfold try_except_on, bind_on, call_predictor, Predictor_predict_on, stateless,
    after_call, present_app, Predictor_predict. cbn.
  destruct (est_predict _ _ _) as [[e|[|v out]] s']; cbn.
  - by destruct (isinstance e Exception).
  - by destruct (isinstance _ Exception).
  - destruct (format_2f w v) as [e|shown]; cbn; [|done].
    by destruct (isinstance e Exception).
Qed.

(** [run] on the object shows what [run] shows with the model in its
    present state; the object changes only through the call of the model, so
    only in a run that reaches the inference. *)
Lemma run_on_agrees {S} (w : World) (self : StatefulApp S) (i : Inputs)
    (preview : DataFrame) :
  get_head w (sa_data_handler self) 4 = (Ret preview, []) →
  GoldPriceApp_run_on w i self
  = (GoldPriceApp_run w (present_app self) i,
     if in_predict i && negb (any_not_positive (in_open i) (in_high i) (in_low i))
     then after_call self (input_frame (in_open i) (in_high i) (in_low i))
     else self).
Proof.
  intros Hhead.
  rewrite (run_unfold w (present_app self) i preview Hhead).
  unfold GoldPriceApp_run_on, bind_on, stateless.
  rewrite (run_page_unfold w _ i preview Hhead).
  destruct (in_predict i); [|done].
  rewrite predict_action_on_agrees. cbn.
  by destruct (any_not_positive _ _ _).
Qed.

Lemma after_call_unchanged {S} (self : StatefulApp S) (input : DataFrame) :
  (est_predict (sp_model (sa_predictor self))
               (est_state (sp_model (sa_predictor self))) input).2
  = est_state (sp_model (sa_predictor self)) →
  after_call self input = self.
Proof.
  destruct self as [dh [path [s f]] req]. unfold after_call. cbn. by intros ->.
Qed.

(** C8. One application object, constructed on a loaded dataset, three
    strictly positive prices, and no state change between the calls: the
    model's [predict] leaves the model in the state in which it found it.
    Then the first predict trigger leaves the whole application object as it
    was, it called the model once on the entered prices, and the second
    trigger with the same prices has the same outcome and puts the same
    events on the page; when the model returns a value that can be
    formatted, both triggers display that value. *)
Theorem repeated_trigger_same_result {S} (w : World) (path : string)
    (required : gset string) (self : StatefulApp S) (o h l : float) :
  result (DataHandler_init w path required) = Ret (sa_data_handler self) →
  (0 <? o)%float = true → (0 <? h)%float = true → (0 <? l)%float = true →
  (est_predict (sp_model (sa_predictor self))
               (est_state (sp_model (sa_predictor self))) (input_frame o h l)).2
  = est_state (sp_model (sa_predictor self)) →
  let first := GoldPriceApp_run_on w (mk_Inputs o h l true) self in
  let second := GoldPriceApp_run_on w (mk_Inputs o h l true) first.2 in
  first.2 = self ∧
  second.1 = first.1 ∧
  second.2 = self ∧
  inferences (trace first.1) = [input_frame o h l] ∧
  inferences (trace second.1) = [input_frame o h l] ∧
  (∀ v rest s,
     (est_predict (sp_model (sa_predictor self))
                  (est_state (sp_model (sa_predictor self))) (input_frame o h l)).1
     = inr (v :: rest) →
     format_2f w v = inr s →
     result first.1 = Ret tt ∧
     messages_shown (trace first.1) = ["The predicted closing price is: " +:+ s] ∧
     messages_shown (trace second.1) = ["The predicted closing price is: " +:+ s]).
Proof.
  intros Hdh Ho Hh Hl Hsame first second.
  pose proof (all_positive_valid o h l Ho Hh Hl) as Hv.
  assert (∃ preview, get_head w (sa_data_handler self) 4 = (Ret preview, []))
    as [preview Hp].
  { apply constructed_subset in Hdh as (Hreq & Hsub & _).
    eexists. apply get_head_present. by rewrite Hreq. }
  assert (first = (GoldPriceApp_run w (present_app self) (mk_Inputs o h l true), self))
    as Hfirst.
  { subst first. rewrite (run_on_agrees w self _ preview Hp). cbn.
    by rewrite Hv, after_call_unchanged. }
  assert (second = first) as Hsecond.
  { subst second. rewrite Hfirst. cbn [snd]. by rewrite <-Hfirst. }
  rewrite Hsecond, Hfirst. cbn [fst snd].
  rewrite (run_unfold w (present_app self) _ preview Hp). cbn [in_predict in_open
    in_high in_low trace result fst snd].
  rewrite inferences_run_prefix, messages_shown_run_prefix.
  rewrite (predict_action_valid_inferences w _ o h l Hv).
  do 5 (split; [done|]).
  intros v rest s Hm Hf.
  rewrite (predict_action_valid w _ o h l Hv). cbv zeta.
  rewrite Predictor_predict_unfold. cbn. by rewrite Hm, Hf.
Qed.

Lemma repeated_trigger_same_result_witness :
  let first := GoldPriceApp_run_on demo_world (mk_Inputs 1900 1950 1880 true) steady_app in
  let second := GoldPriceApp_run_on demo_world (mk_Inputs 1900 1950 1880 true) first.2 in
  first.2 = steady_app ∧
  second.1 = first.1 ∧
  second.2 = steady_app ∧
  inferences (trace first.1) = [input_frame 1900 1950 1880] ∧
  inferences (trace second.1) = [input_frame 1900 1950 1880] ∧
  (∀ v rest s,
     (est_predict (sp_model (sa_predictor steady_app))
                  (est_state (sp_model (sa_predictor steady_app)))
                  (input_frame 1900 1950 1880)).1
     = inr (v :: rest) →
     format_2f demo_world v = inr s →
     result first.1 = Ret tt ∧
     messages_shown (trace first.1) = ["The predicted closing price is: " +:+ s] ∧
     messages_shown (trace second.1) = ["The predicted closing price is: " +:+ s]).
Proof.
  apply (repeated_trigger_same_result demo_world "Gold_Price.csv"
           default_required_columns steady_app 1900 1950 1880).
  - vm_compute. reflexivity.
  - reflexivity.
  - reflexivity.
  - reflexivity.
  - reflexivity.
Defined.

(** Both triggers on the steady model, run one after the other. *)
Example repeated_trigger_demo :
  let first := GoldPriceApp_run_on demo_world (mk_Inputs 1900 1950 1880 true) steady_app in
  let second := GoldPriceApp_run_on demo_world (mk_Inputs 1900 1950 1880 true) first.2 in
  messages_shown (trace first.1) = ["The predicted closing price is: 1900.00"] ∧
  messages_shown (trace second.1) = ["The predicted closing price is: 1900.00"].
Proof. split; vm_compute; reflexivity. Qed.

(** The condition on the model is needed: with a model that changes at each
    call, the same prices give a result the first time and a failure the
    second. *)
Example repeated_trigger_one_shot :
  let first := GoldPriceApp_run_on demo_world (mk_Inputs 1900 1950 1880 true) one_shot_app in
  let second := GoldPriceApp_run_on demo_world (mk_Inputs 1900 1950 1880 true) first.2 in
  messages_shown (trace first.1) = ["The predicted closing price is: 1900.00"] ∧
  messages_shown (trace second.1) = ["Prediction failed: model already used"] ∧
  est_state (sp_model (sa_predictor second.2)) = 2.
Proof. repeat split; vm_compute; reflexivity. Qed.
